(** * Personal Finance Tracker: a shallow embedding of [src/main.py]

    The core of the program is the class [Transaction] and the class
    [FinanceTracker] (the "Ledger" of the specification).  The menu loop
    around them only parses input and prints.

    Conventions of the embedding.
    - Python values that may come out of the JSON file are dynamically typed:
      they are modelled by the type [value].  Arguments that callers pass to
      the methods have the types of the annotations of the source ([amount] a
      number, [category] and [description] strings, [index] an integer).
    - Numbers are kept abstract: a type [A] with the integer [zero] and the
      addition [plus] of Python, which is partial: [int + float] raises
      [OverflowError] when the integer is beyond the range of floats.
      Nothing else is assumed about [plus] unless a statement says so.  Two
      instances are given: the integers ([Z], with [int_plus]) and the
      integers and floats of Python ([number], with [number_plus]).  The
      builtin [sum] is the left-to-right fold of [+] from the integer [0]
      (Python 3.11; later versions compensate the rounding of floats).
    - An exception is a value of [exn]; a computation that may raise returns a
      [result].  Methods that mutate the tracker or the file are functions of
      the state monad [M] over [FinanceTracker], which keeps the state reached
      when an exception is raised (Python does not roll back).
    - The outside world is explicit: the state of the data file ([file]), the
      result of [datetime.now().strftime] ([today]), what happens to a
      write ([write_outcome]) and what happens to a [print] whose text is
      built from the data of a transaction ([print_outcome]).  The other
      [print] calls, whose text is fixed or shows a count or the message of
      an exception, are not modelled: they raise nothing where the output
      can show the texts of the program. *)

From stdpp Require Import gmap strings list fin_maps.
From stdpp Require Import sorting.
From Corelib Require Import PrimFloat.
From Corelib Require FloatOps FloatAxioms SpecFloat.

Open Scope Z_scope.
Set Warnings "-register-all,-inexact-float".

(** ** Exceptions *)

(** The exceptions that the program meets.  [ValueError] stands for
    [UnicodeEncodeError] too, which is one of its subclasses. *)
Inductive exn :=
  | KeyError
  | TypeError
  | ValueError
  | OverflowError
  | OSError
  | JSONDecodeError
  | EOFError.

Inductive result (T : Type) :=
  | Ok (v : T)
  | Raise (e : exn).
Arguments Ok {T} v.
Arguments Raise {T} e.

Global Instance result_ret : MRet result := λ T v, Ok v.
Global Instance result_bind : MBind result := λ T U k r,
  match r with
  | Ok v => k v
  | Raise e => Raise e
  end.
Global Instance result_fmap : FMap result := λ T U g r,
  match r with
  | Ok v => Ok (g v)
  | Raise e => Raise e
  end.

(** [[g(x) for x in l]]: the elements are evaluated from left to right and
    the first exception aborts the comprehension. *)
Fixpoint comprehension {T U : Type} (g : T → result U) (l : list T)
    : result (list U) :=
  match l with
  | [] => Ok []
  | x :: l' => y ← g x; ys ← comprehension g l'; Ok (y :: ys)
  end.

(** ** Python values *)

Section values.
Context {A : Type}.

(** What [json.load] can return, which is also what an attribute of a
    [Transaction] can hold.  [VNum] stands for [int], [float] and [bool]
    (a subclass of [int]). *)
Inductive value :=
  | VNone
  | VNum (a : A)
  | VStr (s : string)
  | VList (l : list value)
  | VDict (d : gmap string value).

(** [data[key]] for a string [key]. *)
Definition subscript (data : value) (key : string) : result value :=
  match data with
  | VDict d =>
      match d !! key with
      | Some v => Ok v
      | None => Raise KeyError
      end
  | _ => Raise TypeError
  end.

(** [for t in data]: the elements of a list, the keys of a dict, the
    characters of a string; other values are not iterable. *)
Definition iterate (data : value) : result (list value) :=
  match data with
  | VList l => Ok l
  | VDict d => Ok (VStr <$> (map_to_list d).*1)
  | VStr s =>
      Ok ((λ c, VStr (String c EmptyString)) <$> String.list_ascii_of_string s)
  | _ => Raise TypeError
  end.

(** [x + y].  The addition of two numbers, [plus], raises [OverflowError]
    where it is [None]. *)
Definition py_add (plus : A → A → option A) (x y : value) : result value :=
  match x, y with
  | VNum a, VNum b =>
      match plus a b with
      | Some c => Ok (VNum c)
      | None => Raise OverflowError
      end
  | VStr s, VStr s' => Ok (VStr (s +:+ s'))
  | VList l, VList l' => Ok (VList (l ++ l'))
  | _, _ => Raise TypeError
  end.

(** [v == s] for a string [s]. *)
Definition eq_str (v : value) (s : string) : bool :=
  match v with
  | VStr s' => bool_decide (s' = s)
  | _ => false
  end.
End values.
Arguments value A : clear implicits.

(** ** The class [Transaction] *)

Section transaction.
Context {A : Type}.

Record Transaction := {
  amount : value A;
  category : value A;
  description : value A;
  date : value A
}.

(** [Transaction.__init__]: no argument is checked; a [date] that is [None]
    is replaced by the current day, [today]. *)
Definition Transaction_init (today : string)
    (amount category description date : value A) : Transaction :=
  {| amount := amount;
     category := category;
     description := description;
     date := match date with
             | VNone => VStr today
             | _ => date
             end |}.

(** [Transaction.to_dict]. *)
Definition to_dict (self : Transaction) : value A :=
  VDict (<["amount" := self.(amount)]>
        (<["category" := self.(category)]>
        (<["description" := self.(description)]>
        (<["date" := self.(date)]> ∅)))).

(** [Transaction.from_dict]: the four subscripts are evaluated, in this
    order, before the constructor is called. *)
Definition from_dict (today : string) (data : value A) : result Transaction :=
  amount ← subscript data "amount";
  category ← subscript data "category";
  description ← subscript data "description";
  date ← subscript data "date";
  Ok (Transaction_init today amount category description date).

End transaction.
Arguments Transaction A : clear implicits.

(** ** The data file and the state of a tracker *)

Section tracker.
Context {A : Type}.
Context (zero : A) (plus : A → A → option A).

(** What the file named [self.data_file] holds: nothing ([os.path.exists] is
    false), text that [open] or [json.load] rejects, or a JSON document, kept
    as the value that [json.load] returns for it. *)
Inductive file :=
  | Missing
  | Unparsable
  | Document (data : value A).

(** What the environment does to one call of [save_data]: the write goes
    through, [open(..., 'w')] raises (the file is left as it was), or
    [json.dump] raises after [open] has truncated the file. *)
Inductive write_outcome :=
  | WriteOk
  | OpenFails
  | DumpFails.

(** What happens to a [print] whose text is built from the data of a
    transaction: the line is printed, or an exception is raised, either when
    the text is built ([str] of an integer of more than 4300 digits raises
    [ValueError]) or when it is written (a character that the output cannot
    encode raises [UnicodeEncodeError], which is a [ValueError]). *)
Inductive print_outcome :=
  | Printed
  | PrintRaises.

(** A [FinanceTracker] object together with its file. *)
Record FinanceTracker := {
  stored : file;
  transactions : list (Transaction A)
}.

(** Computations on a tracker that may raise. *)
Definition M (T : Type) : Type := FinanceTracker → result T * FinanceTracker.

Global Instance M_ret : MRet M := λ T v self, (Ok v, self).

Global Instance M_bind : MBind M := λ T U k c self,
  match c self with
  | (Ok v, self') => k v self'
  | (Raise e, self') => (Raise e, self')
  end.

Definition raise {T} (e : exn) : M T := λ self, (Raise e, self).

(** [try: c except Exception as e: handler(e)]. *)
Definition try_except {T} (c : M T) (handler : exn → M T) : M T := λ self,
  match c self with
  | (Ok v, self') => (Ok v, self')
  | (Raise e, self') => handler e self'
  end.

Definition lift {T} (r : result T) : M T := λ self, (r, self).

Definition get_stored : M file := λ self, (Ok self.(stored), self).

Definition set_stored (f : file) : M unit := λ self,
  (Ok (), {| stored := f; transactions := self.(transactions) |}).

Definition get_transactions : M (list (Transaction A)) := λ self,
  (Ok self.(transactions), self).

Definition set_transactions (l : list (Transaction A)) : M unit := λ self,
  (Ok (), {| stored := self.(stored); transactions := l |}).

(** [print(f"... {data} ...")]. *)
Definition print (p : print_outcome) : M unit :=
  match p with
  | Printed => mret ()
  | PrintRaises => raise ValueError
  end.

(** *** Reading and writing the file *)

(** [os.path.exists(self.data_file)]. *)
Definition path_exists (f : file) : bool :=
  match f with
  | Missing => false
  | _ => true
  end.

(** [open(self.data_file, 'r')] followed by [json.load]. *)
Definition json_load (f : file) : result (value A) :=
  match f with
  | Missing => Raise OSError
  | Unparsable => Raise JSONDecodeError
  | Document data => Ok data
  end.

(** [open(self.data_file, 'w')]: the file is truncated as soon as it is
    opened, and an empty file is not a JSON document. *)
Definition open_w (w : write_outcome) : M unit :=
  match w with
  | OpenFails => raise OSError
  | _ => set_stored Unparsable
  end.

(** [json.dump(data, f)] and the end of the [with] block: the document is
    complete only when both went through. *)
Definition json_dump (w : write_outcome) (data : value A) : M unit :=
  match w with
  | DumpFails => raise OSError
  | _ => set_stored (Document data)
  end.

(** *** The methods of [FinanceTracker] *)

(** [FinanceTracker.load_data]. *)
Definition load_data (today : string) : M unit :=
  f ← get_stored;
  if path_exists f then
    try_except
      (data ← lift (json_load f);
       items ← lift (iterate data);
       l ← lift (comprehension (from_dict today) items);
       set_transactions l)
      (λ _, set_transactions [])
  else set_transactions [].

(** [FinanceTracker.__init__]: the tracker opened on a file in state [f]. *)
Definition FinanceTracker_init (today : string) (f : file) : FinanceTracker :=
  snd (load_data today {| stored := f; transactions := [] |}).

(** [FinanceTracker.save_data]. *)
Definition save_data (w : write_outcome) : M unit :=
  try_except
    (open_w w;;
     l ← get_transactions;
     json_dump w (VList (to_dict <$> l)))
    (λ _, mret ()).

(** [FinanceTracker.add_transaction].  The line that confirms the addition
    shows [amount] and [category]; it is printed inside the [try] block,
    after the transaction has been appended and saved. *)
Definition add_transaction (today : string) (w : write_outcome)
    (p : print_outcome) (amount : A) (category description : string)
    : M bool :=
  try_except
    (let transaction :=
       Transaction_init today (VNum amount) (VStr category)
         (VStr description) VNone in
     l ← get_transactions;
     set_transactions (l ++ [transaction]);;
     save_data w;;
     print p;;
     mret true)
    (λ _, mret false).

(** [sum(xs)]: the additions are made from left to right, starting from the
    integer [0]. *)
Fixpoint py_sum (acc : value A) (xs : list (value A)) : result (value A) :=
  match xs with
  | [] => Ok acc
  | x :: xs' => acc' ← py_add plus acc x; py_sum acc' xs'
  end.

(** [FinanceTracker.get_balance]. *)
Definition get_balance (self : FinanceTracker) : result (value A) :=
  py_sum (VNum zero) (amount <$> self.(transactions)).

(** [FinanceTracker.get_transactions_by_category]. *)
Definition get_transactions_by_category (self : FinanceTracker)
    (wanted : string) : list (Transaction A) :=
  List.filter (λ t, eq_str t.(category) wanted) self.(transactions).

(** [FinanceTracker.delete_transaction].  The line that confirms the
    deletion shows the description of the transaction removed; it is printed
    inside the [try] block, after the removal and the save. *)
Definition delete_transaction (w : write_outcome) (p : print_outcome)
    (index : Z) : M bool :=
  try_except
    (l ← get_transactions;
     if bool_decide (0 ≤ index < Z.of_nat (length l)) then
       set_transactions (delete (Z.to_nat index) l);;
       save_data w;;
       print p;;
       mret true
     else mret false)
    (λ _, mret false).

(** *** Totals by category *)

(** The keys of the dict [totals]: the hashable values.  Hashing a list or a
    dict raises [TypeError]. *)
Inductive key :=
  | KNone
  | KNum (a : A)
  | KStr (s : string).

Definition hash_key (v : value A) : result key :=
  match v with
  | VNone => Ok KNone
  | VNum a => Ok (KNum a)
  | VStr s => Ok (KStr s)
  | _ => Raise TypeError
  end.

Context `{Countable A}.

Global Instance key_eq_dec : EqDecision key.
Proof. solve_decision. Defined.

Global Instance key_countable : Countable key.
Proof.
  refine (inj_countable'
    (λ k, match k with
          | KNone => inl ()
          | KNum a => inr (inl a)
          | KStr s => inr (inr s)
          end)
    (λ x, match x with
          | inl _ => KNone
          | inr (inl a) => KNum a
          | inr (inr s) => KStr s
          end) _).
  by intros [].
Defined.

(** One turn of the loop of [get_category_totals]. *)
Definition add_to_totals (totals : gmap key (value A))
    (transaction : Transaction A) : result (gmap key (value A)) :=
  category ← hash_key transaction.(category);
  let totals :=
    match totals !! category with
    | None => <[category := VNum zero]> totals
    | Some _ => totals
    end in
  old ← match totals !! category with
        | Some v => Ok v
        | None => Raise KeyError
        end;
  new ← py_add plus old transaction.(amount);
  Ok (<[category := new]> totals).

(** [for x in xs: acc = step(acc, x)]. *)
Fixpoint for_each {S T : Type} (step : S → T → result S) (acc : S)
    (xs : list T) : result S :=
  match xs with
  | [] => Ok acc
  | x :: xs' => acc' ← step acc x; for_each step acc' xs'
  end.

(** [FinanceTracker.get_category_totals]. *)
Definition get_category_totals (self : FinanceTracker)
    : result (gmap key (value A)) :=
  for_each add_to_totals ∅ self.(transactions).

End tracker.
Arguments file A : clear implicits.
Arguments FinanceTracker A : clear implicits.
Arguments M A T : clear implicits.
Arguments key A : clear implicits.

(** ** Well-typed transactions and reachable trackers *)

Section data_model.
Context {A : Type}.

(** A transaction whose attributes have the types that the annotations of
    [Transaction.__init__] announce: a number and three strings. *)
Record row := {
  row_amount : A;
  row_category : string;
  row_description : string;
  row_date : string
}.

Definition transaction_of (r : row) : Transaction A :=
  {| amount := VNum r.(row_amount);
     category := VStr r.(row_category);
     description := VStr r.(row_description);
     date := VStr r.(row_date) |}.

(** The states a tracker goes through: it is created by [__init__] on some
    file, then changed by [add_transaction] and [delete_transaction]. *)
Inductive reachable : FinanceTracker A → Prop :=
  | reachable_init today f :
      reachable (FinanceTracker_init today f)
  | reachable_add today w p amount category description self :
      reachable self →
      reachable
        (snd (add_transaction today w p amount category description self))
  | reachable_delete w p index self :
      reachable self →
      reachable (snd (delete_transaction w p index self)).

(** The attribute [date] of an object built by [Transaction.__init__] is
    never [None]. *)
Definition dated (t : Transaction A) : Prop := t.(date) ≠ VNone.

(** A persisted record that lacks one of the four keys. *)
Definition required_keys : list string :=
  ["amount"; "category"; "description"; "date"].

Definition missing_key (v : value A) : Prop :=
  ∃ d k, v = VDict d ∧ k ∈ required_keys ∧ d !! k = None.

(** A file that cannot be parsed, or whose document is a list with a record
    that lacks a key. *)
Inductive corrupt : file A → Prop :=
  | corrupt_unparsable : corrupt Unparsable
  | corrupt_record items r :
      r ∈ items → missing_key r → corrupt (Document (VList items)).

(** What a call of [save_data] leaves in the file. *)
Definition written (w : write_outcome) (self : FinanceTracker A) : file A :=
  match w with
  | WriteOk => Document (VList (to_dict <$> self.(transactions)))
  | OpenFails => self.(stored)
  | DumpFails => Unparsable
  end.

(** What a method that ends with a [print] of data returns: [True] when the
    line was printed, [False] when printing it raised. *)
Definition printed (p : print_outcome) : bool :=
  match p with
  | Printed => true
  | PrintRaises => false
  end.

(** One call [add_transaction(amount, category, description)], with the day
    on which it is made and what happens to its write and to its print. *)
Record call := {
  call_today : string;
  call_outcome : write_outcome;
  call_print : print_outcome;
  call_amount : A;
  call_category : string;
  call_description : string
}.

(** The transaction that a call appends. *)
Definition row_of_call (c : call) : row :=
  {| row_amount := c.(call_amount);
     row_category := c.(call_category);
     row_description := c.(call_description);
     row_date := c.(call_today) |}.

(** The calls made one after the other: the results they return and the
    state they leave. *)
Fixpoint add_calls (calls : list call) (self : FinanceTracker A)
    : list (result bool) * FinanceTracker A :=
  match calls with
  | [] => ([], self)
  | c :: calls' =>
      let '(r, self') :=
        add_transaction c.(call_today) c.(call_outcome) c.(call_print)
          c.(call_amount) c.(call_category) c.(call_description) self in
      let '(rs, self'') := add_calls calls' self' in
      (r :: rs, self'')
  end.

(** [v == VStr s] is decidable without comparing numbers. *)
Global Instance value_eq_str_dec (v : value A) (s : string) :
  Decision (v = VStr s).
Proof.
  destruct v as [| |s'| |]; try by right.
  destruct (decide (s' = s)) as [->|]; [by left|right; congruence].
Defined.

End data_model.
Arguments row A : clear implicits.
Arguments call A : clear implicits.

(** ** Totals of well-typed transactions *)

Section typed_totals.
Context `{Countable A}.
Context (zero : A) (plus : A → A → option A) (add : A → A → A).
Implicit Types (m : gmap (key A) A) (rows : list (row A)).

(** [0 + a1 + ... + an], added from left to right: [None] when one of the
    additions raises [OverflowError]. *)
Definition sum_left (amounts : list A) : option A :=
  foldl (λ acc a, s ← acc; plus s a) (Some zero) amounts.

(** The loop of [get_category_totals] on well-typed transactions whose
    additions raise nothing, [add] being what they return, with the totals
    kept as numbers: a transaction adds its amount to the total of its
    category, which starts from [zero]. *)
Definition totals_of_rows m rows : gmap (key A) A :=
  foldl (λ m r,
           <[KStr r.(row_category) :=
               add (default zero (m !! KStr r.(row_category)))
                   r.(row_amount)]> m)
        m rows.

(** [dict.values()]. *)
Definition dict_values {V} (d : gmap (key A) V) : list V :=
  (map_to_list d).*2.

End typed_totals.

(** ** Concrete data, with integer amounts *)

(** The addition of integers never raises. *)
Definition int_plus (a b : Z) : option Z := Some (a + b).

Definition salary : row Z :=
  {| row_amount := 5000; row_category := "Salary";
     row_description := "March pay"; row_date := "2025-03-01" |}.

Definition food : row Z :=
  {| row_amount := -1200; row_category := "Food";
     row_description := "Groceries"; row_date := "2025-03-02" |}.

(** A tracker created when no file exists. *)
Definition new_tracker : FinanceTracker Z :=
  FinanceTracker_init "2025-03-01" Missing.

(** A record without the key [amount]. *)
Definition record_without_amount : value Z :=
  VDict (<["category" := VStr "Food"]>
        (<["description" := VStr "Groceries"]>
        (<["date" := VStr "2025-03-02"]> ∅))).

(** A file whose second record lacks the key [amount]. *)
Definition corrupt_document : file Z :=
  Document (VList [to_dict (transaction_of salary); record_without_amount]).

Definition food_call : call Z :=
  {| call_today := "2025-03-02"; call_outcome := WriteOk;
     call_print := Printed; call_amount := -1200; call_category := "Food";
     call_description := "Groceries" |}.

(** The character U+D800, a lone surrogate, in the three bytes that stand for
    it: a string of Python may hold it, and no output encodes it. *)
Definition lone_surrogate : string :=
  String (Ascii.ascii_of_nat 237)
    (String (Ascii.ascii_of_nat 160)
       (String (Ascii.ascii_of_nat 128) EmptyString)).

(** A transaction whose description cannot be printed, and the tracker that
    holds it after [add_transaction(1, "Food", description)]: the character
    cannot be written to the file either, so that [json.dump] has failed. *)
Definition unprintable : row Z :=
  {| row_amount := 1; row_category := "Food";
     row_description := lone_surrogate; row_date := "2025-03-02" |}.

Definition unprintable_tracker : FinanceTracker Z :=
  snd (add_transaction "2025-03-02" DumpFails Printed 1 "Food" lone_surrogate
         new_tracker).

(** A tracker that holds the salary, in memory and in its file. *)
Definition salary_tracker : FinanceTracker Z :=
  snd (add_transaction "2025-03-01" WriteOk Printed 5000 "Salary" "March pay"
         new_tracker).

(** A record with a [null] date and a key that the program does not know. *)
Definition record_with_note : gmap string (value Z) :=
  <["amount" := VNum 10]> (<["category" := VStr "Food"]>
  (<["description" := VStr "Bread"]> (<["date" := VNone]>
  (<["note" := VStr "cash"]> ∅)))).

(** A transaction whose amount is a string. *)
Definition text_amount : Transaction Z :=
  {| amount := VStr "100"; category := VStr "Food";
     description := VStr "Bread"; date := VStr "2025-03-02" |}.

(** ** The integers and the floats of Python *)

Inductive number :=
  | PyInt (z : Z)
  | PyFloat (x : float).

(** The conversion of an integer to a float, which [+] applies to an integer
    that meets a float: the nearest float, ties going to the even one, and
    [OverflowError] ([None]) when it would be infinite. *)
Definition float_of_int (z : Z) : option float :=
  match SpecFloat.binary_normalize FloatOps.prec FloatOps.emax z 0 false with
  | SpecFloat.S754_infinity _ => None
  | x => Some (FloatOps.SF2Prim x)
  end.

(** [a + b] on numbers: exact on two integers, the addition of floats
    otherwise, which never raises. *)
Definition number_plus (a b : number) : option number :=
  match a, b with
  | PyInt x, PyInt y => Some (PyInt (x + y))
  | PyInt x, PyFloat y => x' ← float_of_int x; Some (PyFloat (x' + y))
  | PyFloat x, PyInt y => y' ← float_of_int y; Some (PyFloat (x + y'))
  | PyFloat x, PyFloat y => Some (PyFloat (x + y))
  end.

Global Instance spec_float_eq_dec : EqDecision SpecFloat.spec_float.
Proof. solve_decision. Defined.

Global Instance spec_float_countable : Countable SpecFloat.spec_float.
Proof.
  refine (inj_countable'
    (λ x, match x with
          | SpecFloat.S754_zero s => inl (inl s)
          | SpecFloat.S754_infinity s => inl (inr s)
          | SpecFloat.S754_nan => inr (inl ())
          | SpecFloat.S754_finite s m e => inr (inr (s, m, e))
          end)
    (λ x, match x with
          | inl (inl s) => SpecFloat.S754_zero s
          | inl (inr s) => SpecFloat.S754_infinity s
          | inr (inl _) => SpecFloat.S754_nan
          | inr (inr (s, m, e)) => SpecFloat.S754_finite s m e
          end) _).
  by intros [].
Defined.

Global Instance float_eq_dec : EqDecision float.
Proof.
  intros x y.
  destruct (decide (FloatOps.Prim2SF x = FloatOps.Prim2SF y)) as [Hxy|Hxy].
  - left. by apply FloatAxioms.Prim2SF_inj.
  - right. by intros ->.
Defined.

Global Instance float_countable : Countable float :=
  inj_countable FloatOps.Prim2SF (λ s, Some (FloatOps.SF2Prim s))
    (λ x, f_equal Some (FloatAxioms.SF2Prim_Prim2SF x)).

Global Instance number_eq_dec : EqDecision number.
Proof. solve_decision. Defined.

Global Instance number_countable : Countable number.
Proof.
  refine (inj_countable'
    (λ n, match n with
          | PyInt z => inl z
          | PyFloat x => inr x
          end)
    (λ x, match x with
          | inl z => PyInt z
          | inr x => PyFloat x
          end) _).
  by intros [].
Defined.

(** Three amounts typed in the menu, which are floats. *)
Definition tenth : row number :=
  {| row_amount := PyFloat 0.1%float; row_category := "Salary";
     row_description := "Bonus"; row_date := "2025-03-01" |}.

Definition fifth : row number :=
  {| row_amount := PyFloat 0.2%float; row_category := "Freelance";
     row_description := "Review"; row_date := "2025-03-02" |}.

Definition three_tenths : row number :=
  {| row_amount := PyFloat 0.3%float; row_category := "Freelance";
     row_description := "Lecture"; row_date := "2025-03-03" |}.

(** An integer amount beyond the range of floats, then a float amount. *)
Definition huge_call : call number :=
  {| call_today := "2025-03-01"; call_outcome := WriteOk;
     call_print := Printed; call_amount := PyInt (10 ^ 400);
     call_category := "Salary"; call_description := "March pay" |}.

Definition float_call : call number :=
  {| call_today := "2025-03-02"; call_outcome := WriteOk;
     call_print := Printed; call_amount := PyFloat 1.5%float;
     call_category := "Food"; call_description := "Bread" |}.

(** Conversions for the examples: they know a few numerals only. *)
Definition example_float (s : string) : option Z :=
  if decide (s = "100") then Some 100
  else if decide (s = "0") then Some 0
  else None.

Definition example_int (s : string) : option Z :=
  if decide (s = "1") then Some 1
  else if decide (s = "2") then Some 2
  else None.

(** ** The menu functions

    The functions of the menu read what the user types and call the methods
    of the tracker.  The lines still to be typed are part of the state
    ([keyboard]); [input()] takes the first one and raises [EOFError] when
    there is none.  The conversions [float(s)] and [int(s)] are parameters,
    with [None] where Python raises [ValueError], and so are the comparisons
    and the negation of numbers.  In the listing of
    [delete_transaction_menu], what formatting and printing the line of one
    transaction does is a parameter too, [show_line]: [{amount:.2f}] raises
    [OverflowError] for an integer beyond the range of floats, and the text
    of the other attributes may fail to be built or to be written. *)

Section menu.
Context {A : Type}.
Context (zero : A).
Context (le lt : A → A → bool) (neg : A → A).
Context (float : string → option A) (int : string → option Z).
Context (show_line : Transaction A → result unit).

Inductive outcome (T : Type) :=
  | Returns (v : T)
  | Raises (e : exn).
Arguments Returns {T} v.
Arguments Raises {T} e.

(** The tracker of [main] and the lines that the user has still to type. *)
Record console := {
  keyboard : list string;
  tracker : FinanceTracker A
}.

Definition IO (T : Type) : Type := console → outcome T * console.

Global Instance IO_ret : MRet IO := λ T v c, (Returns v, c).

Global Instance IO_bind : MBind IO := λ T U k m c,
  match m c with
  | (Returns v, c') => k v c'
  | (Raises e, c') => (Raises e, c')
  end.

(** [input(prompt)]. *)
Definition input : IO string := λ c,
  match c.(keyboard) with
  | [] => (Raises EOFError, c)
  | line :: rest =>
      (Returns line, {| keyboard := rest; tracker := c.(tracker) |})
  end.

(** [float(s)] and [int(s)], from the parameter that converts. *)
Definition convert {T} (o : option T) : IO T := λ c,
  match o with
  | Some v => (Returns v, c)
  | None => (Raises ValueError, c)
  end.

(** A call of a method of [tracker]. *)
Definition on_tracker {T} (m : M A T) : IO T := λ c,
  match m c.(tracker) with
  | (Ok v, self) => (Returns v, {| keyboard := c.(keyboard); tracker := self |})
  | (Raise e, self) =>
      (Raises e, {| keyboard := c.(keyboard); tracker := self |})
  end.

(** A computation that reads the tracker and changes nothing. *)
Definition reading {T} (g : FinanceTracker A → result T) : IO T := λ c,
  match g c.(tracker) with
  | Ok v => (Returns v, c)
  | Raise e => (Raises e, c)
  end.

(** [try: body except ValueError: handler]: no other exception is caught. *)
Definition except_ValueError {T} (body handler : IO T) : IO T := λ c,
  match body c with
  | (Raises ValueError, c') => handler c'
  | r => r
  end.

(** The dicts [categories] of [add_income] and of [add_expense]. *)
Definition income_categories : gmap string string :=
  <["1" := "Зарплата"]> (<["2" := "Фриланс"]>
  (<["3" := "Инвестиции"]> (<["4" := "Другое"]> ∅))).

Definition expense_categories : gmap string string :=
  <["1" := "Еда"]> (<["2" := "Транспорт"]> (<["3" := "Развлечения"]>
  (<["4" := "Здоровье"]> (<["5" := "Образование"]> (<["6" := "Другое"]> ∅))))).

(** [add_income]. *)
Definition add_income (today : string) (w : write_outcome)
    (p : print_outcome) : IO unit :=
  except_ValueError
    (line ← input;
     amount ← convert (float line);
     if le amount zero then mret ()
     else
       choice ← input;
       let category := default "Другое" (income_categories !! choice) in
       description ← input;
       on_tracker (add_transaction today w p amount category description);;
       mret ())
    (mret ()).

(** [add_expense]. *)
Definition add_expense (today : string) (w : write_outcome)
    (p : print_outcome) : IO unit :=
  except_ValueError
    (line ← input;
     amount ← convert (float line);
     if le amount zero then mret ()
     else
       let amount := neg amount in
       choice ← input;
       let category := default "Другое" (expense_categories !! choice) in
       description ← input;
       on_tracker (add_transaction today w p amount category description);;
       mret ())
    (mret ()).

(** [v > 0]: a value that is not a number cannot be compared with an
    integer. *)
Definition gt_zero (v : value A) : result bool :=
  match v with
  | VNum a => Ok (lt zero a)
  | _ => Raise TypeError
  end.

(** [enumerate(transactions)] with the number [i + 1] that the listings
    print in front of each transaction. *)
Definition numbered {T} (l : list T) : list (Z * T) :=
  imap (λ i t, (Z.of_nat i + 1, t)) l.

(** The listing of [delete_transaction_menu], which comes before its [try]
    block: for each transaction the sign is chosen by the test
    [amount > 0], then the line is formatted and printed. *)
Definition list_transactions (self : FinanceTracker A) : result unit :=
  for_each (λ _ t, gt_zero t.(amount);; show_line t) () self.(transactions).

(** [delete_transaction_menu]. *)
Definition delete_transaction_menu (w : write_outcome) (p : print_outcome)
    : IO unit := λ c,
  match c.(tracker).(transactions) with
  | [] => (Returns (), c)
  | _ =>
      (reading list_transactions;;
       except_ValueError
         (line ← input;
          choice ← convert (int line);
          if bool_decide (choice = 0) then mret ()
          else on_tracker (delete_transaction w p (choice - 1));; mret ())
         (mret ())) c
  end.

End menu.
Arguments Returns {T} v.
Arguments Raises {T} e.
Arguments console A : clear implicits.
Arguments IO A T : clear implicits.

(** ** The listing by date *)

Section listing.
Context {A : Type}.

(** [sorted(transactions, key=lambda x: x.date, reverse=True)] of
    [show_all_transactions], for transactions whose dates are strings: the
    dates are compared as strings, the most recent comes first and
    transactions of the same date keep their order ([sorted] is stable, also
    with [reverse=True]). *)
Fixpoint insert_by_date (r : row A) (sorted : list (row A)) : list (row A) :=
  match sorted with
  | [] => [r]
  | r' :: sorted' =>
      if String.leb r'.(row_date) r.(row_date) then r :: r' :: sorted'
      else r' :: insert_by_date r sorted'
  end.

Definition sorted_by_date (rows : list (row A)) : list (row A) :=
  foldr insert_by_date [] rows.

(** [r] may be listed just before [r']: its date is not the smaller one. *)
Definition not_older (r r' : row A) : Prop :=
  String.leb r'.(row_date) r.(row_date) = true.

End listing.

(** ** Properties *)

Section properties.
Context {A : Type}.
Context (zero : A) (plus : A → A → option A).
Implicit Types (self : FinanceTracker A) (t : Transaction A).
Implicit Types (w : write_outcome) (p : print_outcome) (today : string).

(** *** Serialization *)

Lemma Transaction_init_dated today (a c d dt : value A) :
  dated (Transaction_init today a c d dt).
Proof. unfold dated. by destruct dt. Qed.

Lemma Transaction_init_id today t :
  dated t →
  Transaction_init today t.(amount) t.(category) t.(description) t.(date) = t.
Proof. destruct t as [a c d dt]. unfold dated. simpl. by destruct dt. Qed.

Lemma from_dict_to_dict today t :
  dated t → from_dict today (to_dict t) = Ok t.
Proof.
  intros Ht. unfold from_dict, to_dict, subscript.
  repeat first [rewrite lookup_insert_eq | rewrite lookup_insert_ne by done].
  simpl.
  by rewrite Transaction_init_id.
Qed.

Lemma from_dict_dated today (data : value A) t :
  from_dict today data = Ok t → dated t.
Proof.
  unfold from_dict. intros Ht.
  destruct (subscript data "amount"); [|done].
  destruct (subscript data "category"); [|done].
  destruct (subscript data "description"); [|done].
  destruct (subscript data "date"); [|done].
  simpl in Ht. injection Ht as <-. apply Transaction_init_dated.
Qed.

Lemma comprehension_dated today (items : list (value A))
    (l : list (Transaction A)) :
  comprehension (from_dict today) items = Ok l → Forall dated l.
Proof.
  revert l. induction items as [|x items IH]; intros l; simpl.
  - intros [= <-]. constructor.
  - destruct (from_dict today x) as [t|] eqn:Hx; [|done]. simpl.
    destruct (comprehension (from_dict today) items) as [l'|]; [|done].
    simpl. intros [= <-]. constructor; eauto using from_dict_dated.
Qed.

Lemma comprehension_to_dict today (l : list (Transaction A)) :
  Forall dated l → comprehension (from_dict today) (to_dict <$> l) = Ok l.
Proof.
  induction 1 as [|t l Ht _ IH]; [done|].
  rewrite fmap_cons. simpl. by rewrite from_dict_to_dict, IH.
Qed.

(** A record that lacks a key makes the comprehension of [load_data] raise,
    wherever it stands in the list. *)
Lemma from_dict_missing_key today (r : value A) :
  missing_key r → ∃ e, from_dict today r = Raise e.
Proof.
  intros (d & k & -> & Hk & Hd). unfold from_dict, subscript.
  destruct (d !! "amount") eqn:H1; [simpl|by eauto].
  destruct (d !! "category") eqn:H2; [simpl|by eauto].
  destruct (d !! "description") eqn:H3; [simpl|by eauto].
  destruct (d !! "date") eqn:H4; [simpl|by eauto].
  unfold required_keys in Hk.
  repeat (apply elem_of_cons in Hk as [->|Hk]; [congruence|]).
  by apply elem_of_nil in Hk.
Qed.

Lemma comprehension_missing_key today (items : list (value A)) r :
  r ∈ items → missing_key r →
  ∃ e, comprehension (from_dict today) items = Raise e.
Proof.
  intros Hr Hmiss. induction items as [|x items IH].
  - by apply elem_of_nil in Hr.
  - simpl. apply elem_of_cons in Hr as [<-|Hr].
    + destruct (from_dict_missing_key today r Hmiss) as [e ->]. by eauto.
    + destruct (from_dict today x); [simpl|by eauto].
      destruct (IH Hr) as [e ->]. by eauto.
Qed.

(** *** What the methods do to the state *)

Lemma save_data_eval w self :
  save_data w self
  = (Ok (), {| stored := written w self;
               transactions := self.(transactions) |}).
Proof. by destruct self, w. Qed.

Lemma add_transaction_eval today w p (a : A) (c d : string) self :
  let l := self.(transactions)
             ++ [transaction_of {| row_amount := a; row_category := c;
                                   row_description := d;
                                   row_date := today |}] in
  add_transaction today w p a c d self
  = (Ok (printed p),
     {| stored := written w {| stored := self.(stored); transactions := l |};
        transactions := l |}).
Proof. by destruct self, w, p. Qed.

Lemma delete_transaction_in_range w p (index : Z) self :
  0 ≤ index < Z.of_nat (length self.(transactions)) →
  let l := delete (Z.to_nat index) self.(transactions) in
  delete_transaction w p index self
  = (Ok (printed p),
     {| stored := written w {| stored := self.(stored); transactions := l |};
        transactions := l |}).
Proof.
  intros Hi. destruct self as [f l]. simpl in Hi.
  unfold delete_transaction, try_except, mbind, M_bind, get_transactions.
  simpl. rewrite bool_decide_eq_true_2 by done. by destruct w, p.
Qed.

Lemma delete_transaction_out_of_range w p (index : Z) self :
  ¬ (0 ≤ index < Z.of_nat (length self.(transactions))) →
  delete_transaction w p index self = (Ok false, self).
Proof.
  intros Hi. destruct self as [f l]. simpl in Hi.
  unfold delete_transaction, try_except, mbind, M_bind, get_transactions.
  simpl. by rewrite bool_decide_eq_false_2 by done.
Qed.

Lemma FinanceTracker_init_transactions today (f : file A) :
  (FinanceTracker_init today f).(transactions)
  = match f with
    | Document data =>
        match iterate data ≫= comprehension (from_dict today) with
        | Ok l => l
        | Raise _ => []
        end
    | _ => []
    end.
Proof.
  destruct f as [| |data]; [done..|].
  unfold FinanceTracker_init, load_data, try_except, mbind, M_bind, lift.
  simpl. destruct (iterate data) as [items|]; [simpl|done].
  by destruct (comprehension (from_dict today) items).
Qed.

Lemma FinanceTracker_init_stored today (f : file A) :
  (FinanceTracker_init today f).(stored) = f.
Proof.
  destruct f as [| |data]; [done..|].
  unfold FinanceTracker_init, load_data, try_except, mbind, M_bind, lift.
  simpl. destruct (iterate data) as [items|]; [simpl|done].
  by destruct (comprehension (from_dict today) items).
Qed.

Lemma FinanceTracker_init_written today self :
  Forall dated self.(transactions) →
  (FinanceTracker_init today (written WriteOk self)).(transactions)
  = self.(transactions).
Proof.
  intros Hl. rewrite FinanceTracker_init_transactions. simpl.
  by rewrite comprehension_to_dict.
Qed.

Lemma reachable_dated self : reachable self → Forall dated self.(transactions).
Proof.
  induction 1 as [today f|today w p a c d self _ IH|w p index self _ IH].
  - rewrite FinanceTracker_init_transactions.
    destruct f as [| |data]; [constructor..|].
    destruct (iterate data) as [items|]; [simpl|constructor].
    destruct (comprehension _ items) eqn:Hl; [|constructor].
    eauto using comprehension_dated.
  - rewrite add_transaction_eval. simpl.
    apply Forall_app. split; [done|]. by repeat constructor.
  - destruct (decide (0 ≤ index < Z.of_nat (length self.(transactions)))).
    + rewrite delete_transaction_in_range by done. simpl.
      by apply Forall_delete.
    + by rewrite delete_transaction_out_of_range.
Qed.

Lemma load_data_corrupt today (f : file A) (l : list (Transaction A)) :
  corrupt f →
  load_data today {| stored := f; transactions := l |}
  = (Ok (), {| stored := f; transactions := [] |}).
Proof.
  intros [|items r Hr Hmiss]; [done|].
  unfold load_data, try_except, mbind, M_bind, lift. simpl.
  by destruct (comprehension_missing_key today items r Hr Hmiss) as [e ->].
Qed.

Lemma add_calls_results (calls : list (call A)) self :
  fst (add_calls calls self) = (λ c, Ok (printed c.(call_print))) <$> calls.
Proof.
  revert self. induction calls as [|c calls IH]; intros self; [done|].
  simpl. rewrite add_transaction_eval.
  match goal with
  | |- context [add_calls calls ?s] =>
      specialize (IH s); destruct (add_calls calls s)
  end.
  simpl in *. by rewrite IH.
Qed.

Lemma add_calls_transactions (calls : list (call A)) self :
  (snd (add_calls calls self)).(transactions)
  = self.(transactions) ++ (transaction_of ∘ row_of_call <$> calls).
Proof.
  revert self. induction calls as [|c calls IH]; intros self.
  - simpl. by rewrite app_nil_r.
  - simpl. rewrite add_transaction_eval.
    match goal with
    | |- context [add_calls calls ?s] =>
        specialize (IH s); destruct (add_calls calls s)
    end.
    simpl in *. by rewrite IH, <-app_assoc.
Qed.

(** *** Sums of numbers *)

Lemma sum_from_None (xs : list A) :
  foldl (λ acc a, s ← acc; plus s a) None xs = None.
Proof. by induction xs. Qed.

Lemma py_sum_numbers (z : A) (xs : list A) :
  py_sum plus (VNum z) (VNum <$> xs)
  = match foldl (λ acc a, s ← acc; plus s a) (Some z) xs with
    | Some s => Ok (VNum s)
    | None => Raise OverflowError
    end.
Proof.
  revert z. induction xs as [|x xs IH]; intros z; [done|].
  rewrite fmap_cons. simpl. destruct (plus z x) as [z'|]; simpl.
  - apply IH.
  - by rewrite sum_from_None.
Qed.

Lemma amount_transaction_of (rows : list (row A)) :
  amount <$> (transaction_of <$> rows) = VNum <$> (row_amount <$> rows).
Proof. rewrite <-!list_fmap_compose. by apply list_fmap_ext. Qed.

Lemma eq_str_true (v : value A) (s : string) :
  eq_str v s = true ↔ v = VStr s.
Proof.
  destruct v; simpl; try (split; [done|congruence]).
  rewrite bool_decide_eq_true. split; congruence.
Qed.

(** *** The claims on serialization, persistence and deletion *)

(** C5: for a transaction [t] whose four attributes are set (the attribute
    [date] is not [None]), [from_dict(to_dict(t))] returns a transaction
    equal to [t], attribute by attribute. *)
Theorem from_dict_to_dict_roundtrip today t :
  dated t → from_dict today (to_dict t) = Ok t.
Proof. apply from_dict_to_dict. Qed.

(** C1, amended: from a state that the program can reach, when a call of
    [add_transaction] or [delete_transaction] returns [True] and its write
    went through, a tracker created afterwards from the file holds the
    transactions that are in memory. *)
Theorem reload_after_write today today' p (a : A) (c d : string) (index : Z)
    self self' :
  reachable self →
  add_transaction today WriteOk p a c d self = (Ok true, self')
    ∨ delete_transaction WriteOk p index self = (Ok true, self') →
  (FinanceTracker_init today' self'.(stored)).(transactions)
  = self'.(transactions).
Proof.
  intros Hself [Hadd|Hdel].
  - pose proof (reachable_dated _
                  (reachable_add today WriteOk p a c d _ Hself)) as Hl.
    rewrite Hadd in Hl. simpl in Hl.
    rewrite add_transaction_eval in Hadd. injection Hadd as _ <-.
    by apply (FinanceTracker_init_written today'
                {| stored := _; transactions := _ |}).
  - pose proof (reachable_dated _ (reachable_delete WriteOk p index _ Hself))
      as Hl.
    rewrite Hdel in Hl. simpl in Hl.
    destruct (decide (0 ≤ index < Z.of_nat (length self.(transactions)))).
    + rewrite delete_transaction_in_range in Hdel by done.
      injection Hdel as _ <-.
      by apply (FinanceTracker_init_written today'
                  {| stored := _; transactions := _ |}).
    + by rewrite delete_transaction_out_of_range in Hdel.
Qed.

(** C2, amended: [add_transaction] returns [False] exactly when printing
    the line that confirms the addition raises, and [True] otherwise,
    whatever happens to the write: the constructor checks nothing and
    [save_data] catches the exceptions of the write itself.  The transaction
    is appended in memory in every case; the file holds the new sequence
    when the write went through, is left as it was when [open] failed, and
    is left unparsable when [json.dump] failed. *)
Theorem add_transaction_result today w p (a : A) (c d : string) self :
  ∃ self',
    add_transaction today w p a c d self = (Ok (printed p), self')
    ∧ (fst (add_transaction today w p a c d self) = Ok false
       ↔ p = PrintRaises)
    ∧ self'.(transactions)
      = self.(transactions)
          ++ [transaction_of {| row_amount := a; row_category := c;
                                row_description := d; row_date := today |}]
    ∧ self'.(stored)
      = match w with
        | WriteOk => Document (VList (to_dict <$> self'.(transactions)))
        | OpenFails => self.(stored)
        | DumpFails => Unparsable
        end.
Proof.
  eexists. split; [apply add_transaction_eval|].
  rewrite add_transaction_eval. simpl.
  split; [by destruct p|]. by destruct w.
Qed.

(** C3, amended: with [n] the number of transactions,
    [delete_transaction(index)] returns [False] and changes nothing when
    [index < 0] or [index >= n]; when [0 <= index < n] it removes the
    transaction at position [index] and no other, leaves [n - 1]
    transactions and saves them, and it returns [True] when the line that
    shows the description of the transaction removed is printed, [False]
    when printing it raises. *)
Theorem delete_transaction_bounds w p (index : Z) self :
  let n := Z.of_nat (length self.(transactions)) in
  let i := Z.to_nat index in
  (index < 0 ∨ n ≤ index → delete_transaction w p index self = (Ok false, self))
  ∧ (0 ≤ index < n →
     ∃ t self',
       delete_transaction w p index self = (Ok (printed p), self')
       ∧ self.(transactions)
         = take i self.(transactions) ++ t :: drop (S i) self.(transactions)
       ∧ self'.(transactions)
         = take i self.(transactions) ++ drop (S i) self.(transactions)
       ∧ Z.of_nat (length self'.(transactions)) = n - 1
       ∧ self'.(stored)
         = match w with
           | WriteOk => Document (VList (to_dict <$> self'.(transactions)))
           | OpenFails => self.(stored)
           | DumpFails => Unparsable
           end).
Proof.
  intros n i. split.
  - intros Hi. apply delete_transaction_out_of_range. fold n. lia.
  - intros Hi.
    destruct (lookup_lt_is_Some_2 self.(transactions) i) as [t Ht];
      [unfold i, n in *; lia|].
    exists t. eexists. split; [by apply delete_transaction_in_range|].
    simpl. fold i. split; [by rewrite take_drop_middle|].
    split; [apply delete_take_drop|]. split; [|by destruct w].
    rewrite length_delete by eauto.
    apply lookup_lt_Some in Ht. unfold n. lia.
Qed.

(** C7, amended: when the file cannot be parsed, or holds a list with a
    record that lacks one of the four keys, [load_data] raises nothing and
    leaves the tracker with no transaction and the file as it is, and so
    does the creation of the tracker; the calls of [add_transaction] made
    afterwards append their transactions, in order, and each returns [True]
    when its line is printed and [False] when printing it raises. *)
Theorem corrupt_file_recovery today (f : file A) (l : list (Transaction A))
    (calls : list (call A)) :
  corrupt f →
  load_data today {| stored := f; transactions := l |}
  = (Ok (), {| stored := f; transactions := [] |})
  ∧ FinanceTracker_init today f = {| stored := f; transactions := [] |}
  ∧ fst (add_calls calls (FinanceTracker_init today f))
    = (λ c, Ok (printed c.(call_print))) <$> calls
  ∧ (snd (add_calls calls (FinanceTracker_init today f))).(transactions)
    = transaction_of ∘ row_of_call <$> calls.
Proof.
  intros Hf. split; [by apply load_data_corrupt|].
  assert (FinanceTracker_init today f = {| stored := f; transactions := [] |})
    as ->.
  { unfold FinanceTracker_init. by rewrite load_data_corrupt. }
  split; [done|]. split; [apply add_calls_results|].
  by rewrite add_calls_transactions.
Qed.

(** C9: [get_transactions_by_category(c)] returns the transactions whose
    attribute [category] is the string [c], and only them, in the order in
    which they are stored. *)
Theorem get_transactions_by_category_filter self (c : string) :
  get_transactions_by_category self c
  = filter (λ t, t.(category) = VStr c) self.(transactions).
Proof.
  unfold get_transactions_by_category.
  induction self.(transactions) as [|t l IH]; [done|].
  simpl. rewrite filter_cons, IH.
  destruct (eq_str (category t) c) eqn:Ht.
  - apply eq_str_true in Ht. by rewrite decide_True.
  - rewrite decide_False; [done|]. intros Hc%eq_str_true. congruence.
Qed.

(** C4, amended: starting from a tracker with no transaction, after the
    calls [add_transaction(a1, ...)], ..., [add_transaction(an, ...)],
    whatever happens to their writes and to their prints, [get_balance()]
    returns [0 + a1 + ... + an], added from left to right, when none of
    these additions raises, and raises [OverflowError] when one does. *)
Theorem get_balance_after_adds (f : file A) (calls : list (call A)) :
  get_balance zero plus
    (snd (add_calls calls {| stored := f; transactions := [] |}))
  = match sum_left zero plus (call_amount <$> calls) with
    | Some s => Ok (VNum s)
    | None => Raise OverflowError
    end.
Proof.
  unfold get_balance, sum_left. rewrite add_calls_transactions. simpl.
  rewrite list_fmap_compose, amount_transaction_of, py_sum_numbers.
  rewrite <-list_fmap_compose.
  by rewrite (list_fmap_ext (row_amount ∘ row_of_call) call_amount calls).
Qed.

End properties.

(** *** Totals by category *)

Section totals.
Context `{Countable A}.
Context (zero : A) (plus : A → A → option A).
Implicit Types (m : gmap (key A) A) (rows : list (row A)) (k : key A).

(** The additions raise nothing: [add] is what they return. *)
Context (add : A → A → A).
Context (Hplus : ∀ a b, plus a b = Some (add a b)).

Lemma sum_left_exact (z : A) (xs : list A) :
  foldl (λ acc a, s ← acc; plus s a) (Some z) xs = Some (foldl add z xs).
Proof.
  revert z. induction xs as [|x xs IH]; intros z; [done|].
  simpl. rewrite Hplus. apply IH.
Qed.

Lemma py_sum_exact (z : A) (xs : list A) :
  py_sum plus (VNum z) (VNum <$> xs) = Ok (VNum (foldl add z xs)).
Proof. by rewrite py_sum_numbers, sum_left_exact. Qed.

Lemma py_sum_rows (z : A) rows :
  py_sum plus (VNum z) (amount <$> (transaction_of <$> rows))
  = Ok (VNum (foldl add z (row_amount <$> rows))).
Proof. by rewrite amount_transaction_of, py_sum_exact. Qed.

Lemma add_to_totals_row m (r : row A) :
  add_to_totals zero plus (VNum <$> m) (transaction_of r)
  = Ok (VNum <$> totals_of_rows zero add m [r]).
Proof.
  unfold add_to_totals. simpl. rewrite lookup_fmap.
  destruct (m !! KStr (row_category r)) as [v|] eqn:Hm; simpl.
  - rewrite lookup_fmap, Hm. simpl. rewrite Hplus. simpl.
    by rewrite fmap_insert.
  - rewrite lookup_insert_eq. simpl. rewrite Hplus. simpl.
    by rewrite insert_insert_eq, fmap_insert.
Qed.

Lemma for_each_add_to_totals m rows :
  for_each (add_to_totals zero plus) (VNum <$> m) (transaction_of <$> rows)
  = Ok (VNum <$> totals_of_rows zero add m rows).
Proof.
  revert m. induction rows as [|r rows IH]; intros m; [done|].
  rewrite fmap_cons. simpl. rewrite add_to_totals_row. simpl. apply IH.
Qed.

Lemma get_category_totals_rows (f : file A) rows :
  get_category_totals zero plus
    {| stored := f; transactions := transaction_of <$> rows |}
  = Ok (VNum <$> totals_of_rows zero add ∅ rows).
Proof.
  unfold get_category_totals. simpl.
  rewrite <-(for_each_add_to_totals ∅ rows). by rewrite fmap_empty.
Qed.



(** Sums of numbers when addition is associative and commutative and
    [zero] is neutral. *)
Section exact.
Context `{!Assoc (=) add, !Comm (=) add, !LeftId (=) zero add}.

Lemma foldl_add_foldr (z : A) (xs : list A) :
  foldl add z xs = add z (foldr add zero xs).
Proof.
  revert z. induction xs as [|x xs IH]; intros z; simpl.
  - by rewrite (comm add), (left_id zero add).
  - by rewrite IH, (assoc add).
Qed.

Lemma foldr_add_permutation (xs ys : list A) :
  xs ≡ₚ ys → foldr add zero xs = foldr add zero ys.
Proof.
  apply (foldr_permutation (=) add zero).
  intros _ a1 _ a2 b _ _ _.
  by rewrite !(assoc add), (comm add a1 a2).
Qed.

Lemma foldr_add_insert m k (x : A) :
  m !! k = None →
  foldr add zero (dict_values (<[k := x]> m))
  = add x (foldr add zero (dict_values m)).
Proof.
  intros Hk. unfold dict_values.
  rewrite (foldr_add_permutation _ (x :: (map_to_list m).*2)); [done|].
  by rewrite map_to_list_insert.
Qed.

Lemma foldr_add_totals_step m (r : row A) :
  foldr add zero (dict_values (totals_of_rows zero add m [r]))
  = add (foldr add zero (dict_values m)) r.(row_amount).
Proof.
  simpl. destruct (m !! KStr (row_category r)) as [v|] eqn:Hm; simpl.
  - rewrite <-(insert_delete_id m _ _ Hm) at 2.
    rewrite <-insert_delete_eq.
    rewrite !foldr_add_insert by apply lookup_delete_eq.
    by rewrite <-!(assoc add), (comm add _ (row_amount r)).
  - rewrite foldr_add_insert by done.
    by rewrite (left_id zero add), (comm add).
Qed.

Lemma foldr_add_totals m rows :
  foldr add zero (dict_values (totals_of_rows zero add m rows))
  = foldl add (foldr add zero (dict_values m)) (row_amount <$> rows).
Proof.
  revert m. induction rows as [|r rows IH]; intros m; [done|].
  rewrite fmap_cons. cbn [foldl].
  rewrite <-foldr_add_totals_step. apply (IH (totals_of_rows zero add m [r])).
Qed.

Lemma foldr_add_app (xs ys : list A) :
  foldr add zero (xs ++ ys)
  = add (foldr add zero xs) (foldr add zero ys).
Proof.
  induction xs as [|x xs IH]; simpl.
  - by rewrite (left_id zero add).
  - by rewrite IH, (assoc add).
Qed.

(** C10, amended: on a tracker whose transactions are well typed, when the
    additions are exact (they raise nothing, they are associative and
    commutative and [zero] is neutral, as with integer amounts), the sum of
    the values of the dict returned by [get_category_totals()] is the number
    returned by [get_balance()], and both are the sum of all the amounts. *)
Theorem category_totals_sum_to_balance (f : file A) rows :
  ∃ totals,
    get_category_totals zero plus
      {| stored := f; transactions := transaction_of <$> rows |} = Ok totals
    ∧ get_balance zero plus
        {| stored := f; transactions := transaction_of <$> rows |}
      = Ok (VNum (foldl add zero (row_amount <$> rows)))
    ∧ py_sum plus (VNum zero) (dict_values totals)
      = Ok (VNum (foldl add zero (row_amount <$> rows))).
Proof.
  exists (VNum <$> totals_of_rows zero add ∅ rows). split; [|split].
  - apply get_category_totals_rows.
  - unfold get_balance. simpl. apply py_sum_rows.
  - unfold dict_values. set (m := totals_of_rows zero add ∅ rows).
    assert ((map_to_list (VNum <$> m)).*2 ≡ₚ map VNum (map_to_list m).*2)
      as Hp.
    { rewrite map_to_list_fmap.
      induction (map_to_list m) as [|[k x] l IH]; [done|].
      csimpl. by rewrite IH. }
    apply Permutation_map_inv in Hp as (xs & Hxs & Hperm).
    change (map VNum xs) with (VNum <$> xs) in Hxs.
    rewrite Hxs, py_sum_exact. do 2 f_equal.
    rewrite !foldl_add_foldr, !(left_id zero add).
    rewrite <-(foldr_add_permutation _ _ Hperm).
    change (foldr add zero (map_to_list m).*2)
      with (foldr add zero (dict_values m)).
    unfold m. rewrite foldr_add_totals. unfold dict_values.
    rewrite map_to_list_empty. simpl.
    by rewrite foldl_add_foldr, (left_id zero add).
Qed.

End exact.
End totals.

(** *** The scenario of the specification *)

(** C8: from a tracker with no transaction,
    [add_transaction(5000, "Salary", "March pay")] then
    [add_transaction(-1200, "Food", "Groceries")] give a balance of [3800]
    and the totals [{"Salary": 5000, "Food": -1200}]; then
    [delete_transaction(0)] removes the salary and the balance is
    [-1200].  This holds whatever the file held and whatever happens to the
    three writes; the three lines that confirm the calls are printed. *)
Theorem concrete_scenario (f : file Z) (w1 w2 w3 : write_outcome) :
  let self := {| stored := f; transactions := [] |} in
  let '(r1, self1) :=
    add_transaction "2025-03-01" w1 Printed 5000 "Salary" "March pay" self in
  let '(r2, self2) :=
    add_transaction "2025-03-02" w2 Printed (-1200) "Food" "Groceries" self1 in
  let '(r3, self3) := delete_transaction w3 Printed 0 self2 in
  r1 = Ok true
  ∧ r2 = Ok true
  ∧ get_balance 0 int_plus self2 = Ok (VNum 3800)
  ∧ get_category_totals 0 int_plus self2
    = Ok (<[KStr "Salary" := VNum 5000]> {[KStr "Food" := VNum (-1200)]})
  ∧ r3 = Ok true
  ∧ self3.(transactions) = [transaction_of food]
  ∧ get_balance 0 int_plus self3 = Ok (VNum (-1200)).
Proof.
  intros self. unfold self.
  rewrite add_transaction_eval. cbn [transactions stored app].
  rewrite add_transaction_eval. cbn [transactions stored app].
  rewrite delete_transaction_in_range by (cbn [transactions length]; lia).
  cbn [transactions stored printed].
  repeat (split; [reflexivity|]). reflexivity.
Qed.

(** *** Witnesses *)

Lemma from_dict_to_dict_roundtrip_witness :
  dated (transaction_of salary)
  ∧ from_dict "2025-03-05" (to_dict (transaction_of salary))
    = Ok (transaction_of salary).
Proof.
  split; [discriminate|].
  apply (from_dict_to_dict_roundtrip "2025-03-05" (transaction_of salary)).
  discriminate.
Defined.

Lemma reload_after_write_witness :
  reachable new_tracker
  ∧ add_transaction "2025-03-01" WriteOk Printed 5000 "Salary" "March pay"
      new_tracker
    = (Ok true,
       {| stored := Document (VList [to_dict (transaction_of salary)]);
          transactions := [transaction_of salary] |})
  ∧ (FinanceTracker_init "2025-03-05"
       (Document (VList [to_dict (transaction_of salary)]))).(transactions)
    = [transaction_of salary].
Proof.
  split; [apply reachable_init|]. split; [reflexivity|].
  apply (reload_after_write "2025-03-01" "2025-03-05" Printed 5000 "Salary"
           "March pay" 0 new_tracker
           {| stored := Document (VList [to_dict (transaction_of salary)]);
              transactions := [transaction_of salary] |}).
  - apply reachable_init.
  - left. reflexivity.
Defined.

Lemma delete_transaction_bounds_witness :
  let self :=
    {| stored := Missing;
       transactions := [transaction_of salary; transaction_of food] |} in
  delete_transaction WriteOk Printed 2 self = (Ok false, self)
  ∧ ∃ t self',
      delete_transaction WriteOk Printed 0 self = (Ok true, self')
      ∧ t = transaction_of salary
      ∧ self'.(transactions) = [transaction_of food].
Proof.
  intros self. split.
  - apply (delete_transaction_bounds WriteOk Printed 2 self). right.
    unfold self. simpl. lia.
  - destruct (proj2 (delete_transaction_bounds WriteOk Printed 0 self))
      as (t & self' & Hdel & Ht & Hl & _);
      [unfold self; simpl; lia|].
    exists t, self'. split; [exact Hdel|]. split; [|exact Hl].
    cbn in Ht. by injection Ht as <-.
Defined.

Lemma corrupt_file_recovery_witness :
  corrupt corrupt_document
  ∧ load_data "2025-03-02"
      {| stored := corrupt_document; transactions := [transaction_of food] |}
    = (Ok (), {| stored := corrupt_document; transactions := [] |})
  ∧ FinanceTracker_init "2025-03-02" corrupt_document
    = {| stored := corrupt_document; transactions := [] |}
  ∧ fst (add_calls [food_call]
           (FinanceTracker_init "2025-03-02" corrupt_document))
    = [Ok true]
  ∧ (snd (add_calls [food_call]
            (FinanceTracker_init "2025-03-02" corrupt_document))).(transactions)
    = [transaction_of food].
Proof.
  assert (corrupt corrupt_document) as Hf.
  { apply (corrupt_record _ record_without_amount).
    - right. left.
    - exists (<["category" := VStr "Food"]>
             (<["description" := VStr "Groceries"]>
             (<["date" := VStr "2025-03-02"]> ∅))), "amount".
      split; [reflexivity|]. split; [left|].
      by rewrite !lookup_insert_ne, lookup_empty. }
  split; [exact Hf|].
  apply (corrupt_file_recovery "2025-03-02" corrupt_document
           [transaction_of food] [food_call] Hf).
Defined.


Lemma category_totals_sum_to_balance_witness :
  (∀ a b, int_plus a b = Some (a + b))
  ∧ Assoc (=) Z.add ∧ Comm (=) Z.add ∧ LeftId (=) 0 Z.add
  ∧ ∃ totals,
      get_category_totals 0 int_plus
        {| stored := Missing;
           transactions := transaction_of <$> [salary; food; salary] |}
      = Ok totals
      ∧ get_balance 0 int_plus
          {| stored := Missing;
             transactions := transaction_of <$> [salary; food; salary] |}
        = Ok (VNum 8800)
      ∧ py_sum int_plus (VNum 0) (dict_values totals) = Ok (VNum 8800).
Proof.
  assert (Assoc (=) Z.add) as Ha by (intros x y z; lia).
  assert (Comm (=) Z.add) as Hc by (intros x y; lia).
  assert (LeftId (=) 0 Z.add) as Hz by (intros x; lia).
  split; [reflexivity|]. repeat (split; [assumption|]).
  apply (category_totals_sum_to_balance 0 int_plus Z.add (λ a b, eq_refl)
           (Assoc0 := Ha) (Comm0 := Hc) (LeftId0 := Hz)
           Missing [salary; food; salary]).
Defined.

(** *** Counterexamples *)

(** C1 as stated fails: the call below returns [True] although [open]
    raised; the transaction is in memory, the file is still missing, and a
    tracker created from it afterwards is empty. *)
Lemma reload_after_failed_write :
  reachable new_tracker
  ∧ add_transaction "2025-03-01" OpenFails Printed 5000 "Salary" "March pay"
      new_tracker
    = (Ok true,
       {| stored := Missing; transactions := [transaction_of salary] |})
  ∧ (FinanceTracker_init (A := Z) "2025-03-05" Missing).(transactions) = []
  ∧ (FinanceTracker_init "2025-03-05" Missing).(transactions)
    ≠ [transaction_of salary].
Proof. split; [apply reachable_init|]. by repeat split. Qed.

(** C2 as stated fails: the write raises, in [open] or in [json.dump], and
    [add_transaction] nevertheless returns [True]. *)
Lemma add_transaction_true_when_write_fails :
  fst (open_w OpenFails new_tracker) = Raise OSError
  ∧ fst (add_transaction "2025-03-01" OpenFails Printed 5000 "Salary"
           "March pay" new_tracker) = Ok true
  ∧ fst (json_dump DumpFails (VList [to_dict (transaction_of salary)])
           new_tracker) = Raise OSError
  ∧ fst (add_transaction "2025-03-01" DumpFails Printed 5000 "Salary"
           "March pay" new_tracker) = Ok true
  ∧ fst (add_transaction "2025-03-01" OpenFails Printed 5000 "Salary"
           "March pay" new_tracker) ≠ Ok false.
Proof. by repeat split. Qed.

(** C3 as stated fails: the tracker holds one transaction, whose
    description cannot be printed; [delete_transaction(0)] removes it and
    saves the empty list, then the [print] of the description raises and the
    call returns [False]. *)
Lemma delete_transaction_false_in_range :
  unprintable_tracker.(transactions) = [transaction_of unprintable]
  ∧ 0 ≤ 0 < Z.of_nat (length unprintable_tracker.(transactions))
  ∧ delete_transaction WriteOk PrintRaises 0 unprintable_tracker
    = (Ok false, {| stored := Document (VList []); transactions := [] |})
  ∧ fst (delete_transaction WriteOk PrintRaises 0 unprintable_tracker)
    ≠ Ok true.
Proof. by repeat split. Qed.

(** C4 as stated fails: after [add_transaction(10 ** 400, ...)] and
    [add_transaction(1.5, ...)], which both return [True], [get_balance()]
    returns nothing: the integer cannot be converted to a float and the
    addition raises [OverflowError]. *)
Lemma get_balance_overflow :
  fst (add_calls [huge_call; float_call]
         {| stored := Missing; transactions := [] |})
  = [Ok true; Ok true]
  ∧ number_plus (PyInt (10 ^ 400)) (PyFloat 1.5%float) = None
  ∧ get_balance (PyInt 0) number_plus
      (snd (add_calls [huge_call; float_call]
              {| stored := Missing; transactions := [] |}))
    = Raise OverflowError.
Proof.
  split; [by rewrite add_calls_results|]. split; [by vm_compute|].
  unfold get_balance. rewrite add_calls_transactions. by vm_compute.
Qed.


(** C7 as stated fails: the tracker is created from a file whose second
    record lacks the key [amount]; the call of [add_transaction] made
    afterwards with an integer of 5001 digits appends the transaction but
    returns [False]: neither [json.dump] nor [print] can build the text of
    the amount. *)
Lemma add_after_recovery_returns_false :
  corrupt corrupt_document
  ∧ FinanceTracker_init "2025-03-02" corrupt_document
    = {| stored := corrupt_document; transactions := [] |}
  ∧ fst (add_transaction "2025-03-02" DumpFails PrintRaises (10 ^ 5000) "Food"
           "Groceries" (FinanceTracker_init "2025-03-02" corrupt_document))
    = Ok false.
Proof.
  assert (corrupt corrupt_document) as Hf.
  { apply (corrupt_record _ record_without_amount).
    - right. left.
    - exists (<["category" := VStr "Food"]>
             (<["description" := VStr "Groceries"]>
             (<["date" := VStr "2025-03-02"]> ∅))), "amount".
      split; [reflexivity|]. split; [left|].
      by rewrite !lookup_insert_ne, lookup_empty. }
  split; [exact Hf|]. split.
  - unfold FinanceTracker_init. by rewrite load_data_corrupt.
  - by rewrite add_transaction_eval.
Qed.

(** C10 as stated fails: with the float amounts [0.1] in one category and
    [0.2] and [0.3] in another, [get_balance()] returns
    [0.6000000000000001] and the sum of the values of
    [get_category_totals()] is [0.6]. *)
Lemma category_totals_differ_from_balance :
  get_balance (PyInt 0) number_plus
    {| stored := Missing;
       transactions := transaction_of <$> [tenth; fifth; three_tenths] |}
  = Ok (VNum (PyFloat 0.6000000000000001%float))
  ∧ (get_category_totals (PyInt 0) number_plus
       {| stored := Missing;
          transactions := transaction_of <$> [tenth; fifth; three_tenths] |}
     ≫= λ totals, py_sum number_plus (VNum (PyInt 0)) (dict_values totals))
    = Ok (VNum (PyFloat 0.6%float))
  ∧ PyFloat 0.6000000000000001%float ≠ PyFloat 0.6%float.
Proof.
  split; [by vm_compute|]. split; [by vm_compute|].
  intros [=].
Qed.

(** ** Further properties of the tracker *)

Section further.
Context {A : Type}.
Context (zero : A) (plus : A → A → option A).
Implicit Types (self : FinanceTracker A) (t : Transaction A).
Implicit Types (w : write_outcome) (p : print_outcome) (today : string).
Implicit Types (d : gmap string (value A)).

(** *** Records of the file *)

Lemma from_dict_dict today d :
  from_dict today (VDict d)
  = match d !! "amount", d !! "category", d !! "description", d !! "date" with
    | Some a, Some c, Some ds, Some dt => Ok (Transaction_init today a c ds dt)
    | _, _, _, _ => Raise KeyError
    end.
Proof.
  unfold from_dict, subscript.
  destruct (d !! "amount"); [simpl|done].
  destruct (d !! "category"); [simpl|done].
  destruct (d !! "description"); [simpl|done].
  by destruct (d !! "date").
Qed.

Lemma required_keys_present d :
  Forall (λ k, is_Some (d !! k)) required_keys
  ↔ ∃ a c ds dt, d !! "amount" = Some a ∧ d !! "category" = Some c
      ∧ d !! "description" = Some ds ∧ d !! "date" = Some dt.
Proof.
  unfold required_keys, is_Some. rewrite !Forall_cons, Forall_nil. split.
  - intros ([a ?] & [c ?] & [ds ?] & [dt ?] & _). by exists a, c, ds, dt.
  - intros (a & c & ds & dt & ? & ? & ? & ?). repeat split; eauto.
Qed.

(** [from_dict] returns a transaction exactly for a dict that has the four
    keys, whatever their values; it raises [KeyError] for a dict that lacks
    one of them and [TypeError] for a value that is not a dict. *)
Theorem from_dict_outcome today (data : value A) :
  ((∃ t, from_dict today data = Ok t)
   ↔ ∃ d, data = VDict d ∧ Forall (λ k, is_Some (d !! k)) required_keys)
  ∧ (from_dict today data = Raise KeyError
     ↔ ∃ d, data = VDict d ∧ Exists (λ k, d !! k = None) required_keys)
  ∧ (from_dict today data = Raise TypeError ↔ ∀ d, data ≠ VDict d).
Proof.
  destruct data as [|a|s|l|d];
    try (cbn; split; [|split]; split; try done;
         first [intros [? ?]; done | intros (? & ? & ?); done]).
  rewrite from_dict_dict. split; [|split].
  - split.
    + intros [t Ht]. exists d. split; [done|].
      apply required_keys_present.
      destruct (d !! "amount") as [a|], (d !! "category") as [c|],
        (d !! "description") as [ds|], (d !! "date") as [dt|]; try done.
      by exists a, c, ds, dt.
    + intros (d' & [= <-] & Hd).
      apply required_keys_present in Hd
        as (a & c & ds & dt & -> & -> & -> & ->).
      eauto.
  - unfold required_keys. split.
    + intros Hd. exists d. split; [done|].
      rewrite !Exists_cons, Exists_nil.
      destruct (d !! "amount"), (d !! "category"), (d !! "description"),
        (d !! "date"); try done; eauto 6.
    + intros (d' & [= <-] & Hd).
      rewrite !Exists_cons, Exists_nil in Hd.
      destruct Hd as [->|[->|[->|[->|[]]]]]; [done|..].
      * by destruct (d !! "amount").
      * by destruct (d !! "amount"), (d !! "category").
      * by destruct (d !! "amount"), (d !! "category"), (d !! "description").
  - split; [|intros Hd; by destruct (Hd d)].
    destruct (d !! "amount"), (d !! "category"), (d !! "description"),
      (d !! "date"); done.
Qed.

(** A record that is loaded and saved again keeps the values of its four
    keys, except that a [date] that was [null] becomes the day of the
    loading; every other key of the record is dropped. *)
Theorem to_dict_from_dict today d t :
  from_dict today (VDict d) = Ok t →
  ∃ d', to_dict t = VDict d'
    ∧ d' !! "amount" = d !! "amount"
    ∧ d' !! "category" = d !! "category"
    ∧ d' !! "description" = d !! "description"
    ∧ d' !! "date"
      = (λ dt, match dt with VNone => VStr today | _ => dt end)
          <$> d !! "date"
    ∧ ∀ k, k ∉ required_keys → d' !! k = None.
Proof.
  rewrite from_dict_dict.
  destruct (d !! "amount") as [a|], (d !! "category") as [c|],
    (d !! "description") as [ds|], (d !! "date") as [dt|]; try done.
  intros [= <-]. eexists. split; [reflexivity|].
  cbn [Transaction_init amount category description date].
  do 4 (split; [reflexivity|]).
  intros k Hk. unfold required_keys in Hk.
  rewrite !not_elem_of_cons in Hk. destruct Hk as (? & ? & ? & ? & _).
  by rewrite !lookup_insert_ne, lookup_empty.
Qed.

(** *** Loading *)

Lemma comprehension_Forall2 {T U} (g : T → result U) (xs : list T)
    (ys : list U) :
  comprehension g xs = Ok ys ↔ Forall2 (λ x y, g x = Ok y) xs ys.
Proof.
  revert ys. induction xs as [|x xs IH]; intros ys; simpl.
  - split; [intros [= <-]; constructor|by inversion 1].
  - destruct (g x) as [y|e] eqn:Hx; simpl.
    + destruct (comprehension g xs) as [ys'|e] eqn:Hxs; simpl.
      * split.
        -- intros [= <-]. constructor; [done|]. by apply IH.
        -- inversion 1 as [|? y' ? ys'' Hy Hys]; subst.
           apply IH in Hys as [= <-]. congruence.
      * split; [done|]. inversion 1 as [|? y' ? ys'' Hy Hys]; subst.
        by apply IH in Hys.
    + split; [done|]. inversion 1; congruence.
Qed.

(** [load_data] raises nothing and never writes: the file is afterwards
    what it was, also when it is missing or cannot be read. *)
Theorem load_data_keeps_file today self :
  fst (load_data today self) = Ok ()
  ∧ (snd (load_data today self)).(stored) = self.(stored).
Proof.
  destruct self as [f l]. destruct f as [| |data]; [done..|].
  unfold load_data, try_except, mbind, M_bind, lift. simpl.
  destruct (iterate data) as [items|]; [simpl|done].
  by destruct (comprehension (from_dict today) items).
Qed.

(** The records of a file are loaded all or none: when the document is a
    list, the tracker holds either one transaction for each item, built by
    [from_dict] and in the order of the file, or nothing; and it holds
    nothing as soon as one item is refused by [from_dict]. *)
Theorem load_all_or_nothing today (items : list (value A)) :
  let l :=
    (FinanceTracker_init today (Document (VList items))).(transactions) in
  (l = [] ∨ Forall2 (λ item t, from_dict today item = Ok t) items l)
  ∧ (Exists (λ item, ∀ t, from_dict today item ≠ Ok t) items → l = []).
Proof.
  intros l. unfold l. rewrite FinanceTracker_init_transactions. simpl.
  destruct (comprehension (from_dict today) items) as [l'|e] eqn:Hl.
  - apply comprehension_Forall2 in Hl. split; [by right|].
    intros Hex. apply Exists_exists in Hex as (item & Hitem & Hno).
    apply list_elem_of_lookup in Hitem as [i Hi].
    destruct (Forall2_lookup_l _ _ _ _ _ Hl Hi) as (t & _ & Ht).
    by destruct (Hno t).
  - split; [by left|done].
Qed.

(** *** The balance *)

Lemma py_sum_app (acc : value A) (xs ys : list (value A)) :
  py_sum plus acc (xs ++ ys)
  = py_sum plus acc xs ≫= λ acc', py_sum plus acc' ys.
Proof.
  revert acc. induction xs as [|x xs IH]; intros acc; [done|].
  simpl. destruct (py_add plus acc x); [apply IH|done].
Qed.

Lemma py_sum_cases (z : A) (xs : list (value A)) :
  match py_sum plus (VNum z) xs with
  | Ok v => (∃ b, v = VNum b) ∧ Forall (λ x, ∃ a, x = VNum a) xs
  | Raise e =>
      e = OverflowError
      ∨ e = TypeError ∧ Exists (λ x, ∀ a, x ≠ VNum a) xs
  end.
Proof.
  revert z. induction xs as [|x xs IH]; intros z; simpl; [by eauto|].
  destruct x as [|a|s|l|d];
    try (right; split; [done|]; by left).
  simpl. destruct (plus z a) as [z'|]; simpl; [|by left].
  specialize (IH z'). destruct (py_sum plus (VNum z') xs) as [v|e].
  - destruct IH as [Hv Hxs]. split; [done|]. constructor; eauto.
  - destruct IH as [->|[-> Hxs]]; [by left|right]. split; [done|by right].
Qed.

(** [get_balance] returns nothing but a number, and only when the amounts
    of all the transactions are numbers.  Otherwise it raises
    [OverflowError], from an addition of two numbers, or [TypeError], and
    then one of the amounts is not a number. *)
Theorem get_balance_typing self :
  match get_balance zero plus self with
  | Ok v =>
      (∃ b, v = VNum b)
      ∧ Forall (λ t, ∃ a, t.(amount) = VNum a) self.(transactions)
  | Raise e =>
      e = OverflowError
      ∨ e = TypeError
        ∧ Exists (λ t, ∀ a, t.(amount) ≠ VNum a) self.(transactions)
  end.
Proof.
  unfold get_balance.
  pose proof (py_sum_cases zero (amount <$> self.(transactions))) as Hsum.
  destruct (py_sum plus (VNum zero) (amount <$> transactions self)) as [v|e].
  - destruct Hsum as [Hv Hl]. split; [done|].
    rewrite Forall_fmap in Hl. exact Hl.
  - destruct Hsum as [->|[-> Hl]]; [by left|right].
    split; [done|]. rewrite Exists_fmap in Hl. exact Hl.
Qed.

(** Nothing checks the values of a record: a file whose records have the
    four keys is loaded as it is, and when the amount of one record is not
    a number, [get_balance] then returns nothing: it raises [TypeError], or
    [OverflowError] when an addition made before that amount has raised
    it. *)
Theorem load_unchecked_amount today (l : list (Transaction A)) t :
  Forall dated l →
  t ∈ l →
  (∀ a, t.(amount) ≠ VNum a) →
  let self := FinanceTracker_init today (Document (VList (to_dict <$> l))) in
  self.(transactions) = l
  ∧ ∃ e, get_balance zero plus self = Raise e
      ∧ (e = TypeError ∨ e = OverflowError).
Proof.
  intros Hl Ht Ha self.
  assert (self.(transactions) = l) as Hself.
  { unfold self. rewrite FinanceTracker_init_transactions. simpl.
    by rewrite comprehension_to_dict. }
  split; [done|]. unfold get_balance. rewrite Hself.
  pose proof (py_sum_cases zero (amount <$> l)) as Hsum.
  destruct (py_sum plus (VNum zero) (amount <$> l)) as [v|e].
  - destruct Hsum as [_ Hnum]. rewrite Forall_fmap, Forall_forall in Hnum.
    destruct (Hnum t Ht) as [a Hta].
    by destruct (Ha a).
  - exists e. split; [done|]. destruct Hsum as [->|[-> _]]; eauto.
Qed.

(** After [add_transaction(amount, ...)] the balance is the balance before
    plus [amount]; when the balance could not be computed before, it still
    cannot. *)
Theorem get_balance_add today w p (a : A) (c d : string) self :
  get_balance zero plus (snd (add_transaction today w p a c d self))
  = get_balance zero plus self ≫= λ b, py_add plus b (VNum a).
Proof.
  rewrite add_transaction_eval. unfold get_balance. simpl.
  rewrite fmap_app, py_sum_app. simpl.
  destruct (py_sum plus (VNum zero) (amount <$> transactions self));
    [simpl|done].
  by destruct (py_add plus v (VNum a)).
Qed.

(** *** How the methods compose *)

(** Deleting the last position just after an [add_transaction] gives back
    the transactions that were there before the addition, whatever happens
    to the two writes and to the two prints; the deletion returns [True]
    when its line is printed; when the second write goes through, the file
    holds the transactions that were there before the addition. *)
Theorem add_then_delete_last today w w' p p' (a : A) (c d : string) self :
  let n := Z.of_nat (length self.(transactions)) in
  let self' := snd (add_transaction today w p a c d self) in
  fst (delete_transaction w' p' n self') = Ok (printed p')
  ∧ (snd (delete_transaction w' p' n self')).(transactions)
    = self.(transactions)
  ∧ (snd (delete_transaction WriteOk p' n self')).(stored)
    = Document (VList (to_dict <$> self.(transactions))).
Proof.
  intros n self'. unfold self', n. rewrite add_transaction_eval.
  rewrite !delete_transaction_in_range
    by (simpl; rewrite length_app; simpl; lia).
  simpl. rewrite Nat2Z.id.
  by rewrite (delete_middle _ []), app_nil_r.
Qed.

Lemma for_each_app {S T} (step : S → T → result S) (acc : S) (xs ys : list T) :
  for_each step acc (xs ++ ys)
  = for_each step acc xs ≫= λ acc', for_each step acc' ys.
Proof.
  revert acc. induction xs as [|x xs IH]; intros acc; [done|].
  simpl. destruct (step acc x); [apply IH|done].
Qed.

(** The transactions of a category after [add_transaction(_, c, _)]: the
    new transaction comes last in the list of its category [c], and the
    lists of the other categories are unchanged. *)
Theorem get_transactions_by_category_add today w p (a : A) (c d X : string)
    self :
  get_transactions_by_category
    (snd (add_transaction today w p a c d self)) X
  = get_transactions_by_category self X
      ++ (if decide (c = X)
          then [transaction_of {| row_amount := a; row_category := c;
                                  row_description := d; row_date := today |}]
          else []).
Proof.
  rewrite add_transaction_eval. unfold get_transactions_by_category. simpl.
  rewrite List.filter_app. simpl. f_equal.
  destruct (decide (c = X)) as [->|Hc].
  - by rewrite bool_decide_eq_true_2.
  - by rewrite bool_decide_eq_false_2.
Qed.

(** *** Restarting after a write that failed *)

(** When [json.dump] fails during an [add_transaction], a tracker created
    afterwards is empty: the transactions that the file held before are lost
    with the new one, and the call has nevertheless returned [True] if its
    line was printed.  When [open] fails, a tracker created afterwards holds
    what the file gave before the call. *)
Theorem restart_after_failed_add today today' p (a : A) (c d : string) self :
  fst (add_transaction today DumpFails p a c d self) = Ok (printed p)
  ∧ (FinanceTracker_init today'
       (snd (add_transaction today DumpFails p a c d self)).(stored))
      .(transactions)
    = []
  ∧ (FinanceTracker_init today'
       (snd (add_transaction today OpenFails p a c d self)).(stored))
      .(transactions)
    = (FinanceTracker_init today' self.(stored)).(transactions).
Proof. by rewrite !add_transaction_eval. Qed.

(** The same for a [delete_transaction] at a valid position: when
    [json.dump] fails, a tracker created afterwards is empty, although one
    transaction only was to be removed, and the call has returned [True] if
    its line was printed. *)
Theorem restart_after_failed_delete today p (index : Z) self :
  0 ≤ index < Z.of_nat (length self.(transactions)) →
  fst (delete_transaction DumpFails p index self) = Ok (printed p)
  ∧ (FinanceTracker_init today
       (snd (delete_transaction DumpFails p index self)).(stored))
      .(transactions)
    = [].
Proof. intros Hi. by rewrite delete_transaction_in_range. Qed.

(** A file written by the program is a fixed point of loading and saving:
    a tracker created from it and saved at once writes the same document. *)
Theorem load_then_save today self :
  reachable self →
  (snd (save_data WriteOk
          (FinanceTracker_init today
             (snd (save_data WriteOk self)).(stored)))).(stored)
  = (snd (save_data WriteOk self)).(stored).
Proof.
  intros Hself%reachable_dated. rewrite !save_data_eval. simpl.
  pose proof (FinanceTracker_init_written today self Hself) as Hl.
  simpl in Hl. by rewrite Hl.
Qed.

End further.

(** *** The balance and the totals after an addition or a deletion *)

Section further_totals.
Context `{Countable A}.
Context (zero : A) (plus : A → A → option A).
Implicit Types (self : FinanceTracker A) (rows : list (row A)).

(** The totals after [add_transaction(amount, category, _)] are the totals
    before, updated by one turn of the loop for the new transaction: only
    the total of [category] changes. *)
Theorem get_category_totals_add today w p (a : A) (c d : string) self :
  get_category_totals zero plus (snd (add_transaction today w p a c d self))
  = get_category_totals zero plus self
      ≫= λ totals,
           add_to_totals zero plus totals
             (transaction_of {| row_amount := a; row_category := c;
                                row_description := d; row_date := today |}).
Proof.
  rewrite add_transaction_eval. unfold get_category_totals. simpl.
  rewrite for_each_app. simpl.
  destruct (for_each _ ∅ (transactions self)) as [totals|]; [simpl|done].
  by destruct (add_to_totals zero plus totals _).
Qed.

Context (add : A → A → A).
Context (Hplus : ∀ a b, plus a b = Some (add a b)).
Context `{!Assoc (=) add, !Comm (=) add, !LeftId (=) zero add}.

(** On a well-typed ledger whose additions are exact (they raise nothing,
    they are associative and commutative and [zero] is neutral), deleting
    the transaction at a valid position lowers the balance by the amount of
    this transaction: the balance before is the balance after plus this
    amount.  The call returns [True] when its line is printed. *)
Theorem get_balance_delete w p (f : file A) rows (i : nat) (r : row A) :
  rows !! i = Some r →
  let self := {| stored := f; transactions := transaction_of <$> rows |} in
  ∃ b b',
    get_balance zero plus self = Ok (VNum b)
    ∧ fst (delete_transaction w p (Z.of_nat i) self) = Ok (printed p)
    ∧ get_balance zero plus (snd (delete_transaction w p (Z.of_nat i) self))
      = Ok (VNum b')
    ∧ b = add b' r.(row_amount).
Proof.
  intros Hr self. apply lookup_lt_Some in Hr as Hi.
  unfold self. rewrite delete_transaction_in_range
    by (simpl; rewrite length_fmap; lia).
  unfold get_balance. simpl. rewrite Nat2Z.id.
  rewrite <-list_fmap_delete, !(py_sum_rows plus add Hplus).
  do 2 eexists. do 3 (split; [reflexivity|]).
  rewrite !(foldl_add_foldr zero add), !(left_id zero add).
  rewrite <-(take_drop_middle rows i r Hr) at 1.
  rewrite delete_take_drop, !fmap_app, fmap_cons.
  rewrite !(foldr_add_app zero add). simpl.
  rewrite <-!(assoc add). f_equal. apply (comm add).
Qed.

End further_totals.

(** ** Properties of the menu functions *)

Section menu_properties.
Context {A : Type}.
Context (zero : A).
Context (le lt : A → A → bool) (neg : A → A).
Context (float : string → option A) (int : string → option Z).
Context (show_line : Transaction A → result unit).
Implicit Types (self : FinanceTracker A) (c : console A).
Implicit Types (w : write_outcome) (p : print_outcome) (today line : string).

Lemma on_tracker_add_transaction today w p (a : A) (cat d : string) c :
  on_tracker (add_transaction today w p a cat d) c
  = (Returns (printed p),
     {| keyboard := c.(keyboard);
        tracker := snd (add_transaction today w p a cat d c.(tracker)) |}).
Proof. unfold on_tracker. by rewrite add_transaction_eval. Qed.

Lemma income_category_listed (choice : string) :
  default "Другое" (income_categories !! choice)
  ∈ ["Зарплата"; "Фриланс"; "Инвестиции"; "Другое"].
Proof.
  unfold income_categories.
  destruct (decide ("1" = choice)) as [<-|];
    [rewrite lookup_insert_eq; simpl; by left
    |rewrite lookup_insert_ne by done].
  destruct (decide ("2" = choice)) as [<-|];
    [rewrite lookup_insert_eq; simpl; by right; left
    |rewrite lookup_insert_ne by done].
  destruct (decide ("3" = choice)) as [<-|];
    [rewrite lookup_insert_eq; simpl; by do 2 right; left
    |rewrite lookup_insert_ne by done].
  destruct (decide ("4" = choice)) as [<-|];
    [rewrite lookup_insert_eq|rewrite lookup_insert_ne, lookup_empty by done];
    simpl; by do 3 right; left.
Qed.

Lemma expense_category_listed (choice : string) :
  default "Другое" (expense_categories !! choice)
  ∈ ["Еда"; "Транспорт"; "Развлечения"; "Здоровье"; "Образование"; "Другое"].
Proof.
  unfold expense_categories.
  destruct (decide ("1" = choice)) as [<-|];
    [rewrite lookup_insert_eq; simpl; by left
    |rewrite lookup_insert_ne by done].
  destruct (decide ("2" = choice)) as [<-|];
    [rewrite lookup_insert_eq; simpl; by right; left
    |rewrite lookup_insert_ne by done].
  destruct (decide ("3" = choice)) as [<-|];
    [rewrite lookup_insert_eq; simpl; by do 2 right; left
    |rewrite lookup_insert_ne by done].
  destruct (decide ("4" = choice)) as [<-|];
    [rewrite lookup_insert_eq; simpl; by do 3 right; left
    |rewrite lookup_insert_ne by done].
  destruct (decide ("5" = choice)) as [<-|];
    [rewrite lookup_insert_eq; simpl; by do 4 right; left
    |rewrite lookup_insert_ne by done].
  destruct (decide ("6" = choice)) as [<-|];
    [rewrite lookup_insert_eq|rewrite lookup_insert_ne, lookup_empty by done];
    simpl; by do 5 right; left.
Qed.

(** What [add_income] does when the amount is accepted. *)
Lemma add_income_eval today w p line choice description rest self (a : A) :
  float line = Some a →
  le a zero = false →
  add_income zero le float today w p
    {| keyboard := line :: choice :: description :: rest; tracker := self |}
  = (Returns (),
     {| keyboard := rest;
        tracker :=
          snd (add_transaction today w p a
                 (default "Другое" (income_categories !! choice))
                 description self) |}).
Proof.
  intros Ha Hle.
  unfold add_income, except_ValueError, mbind, IO_bind, input, convert.
  simpl. rewrite Ha, Hle. simpl.
  by rewrite on_tracker_add_transaction.
Qed.

Lemma add_expense_eval today w p line choice description rest self (a : A) :
  float line = Some a →
  le a zero = false →
  add_expense zero le neg float today w p
    {| keyboard := line :: choice :: description :: rest; tracker := self |}
  = (Returns (),
     {| keyboard := rest;
        tracker :=
          snd (add_transaction today w p (neg a)
                 (default "Другое" (expense_categories !! choice))
                 description self) |}).
Proof.
  intros Ha Hle.
  unfold add_expense, except_ValueError, mbind, IO_bind, input, convert.
  simpl. rewrite Ha, Hle. simpl.
  by rewrite on_tracker_add_transaction.
Qed.

Lemma add_rejected_eval today w p line rest self :
  float line = None ∨ (∃ a, float line = Some a ∧ le a zero = true) →
  add_income zero le float today w p
    {| keyboard := line :: rest; tracker := self |}
  = (Returns (), {| keyboard := rest; tracker := self |})
  ∧ add_expense zero le neg float today w p
      {| keyboard := line :: rest; tracker := self |}
    = (Returns (), {| keyboard := rest; tracker := self |}).
Proof.
  unfold add_income, add_expense, except_ValueError, mbind, IO_bind, input,
    convert.
  simpl. by intros [->|(a & -> & ->)].
Qed.

(** [add_income] with a line that [float] converts to an amount that is
    not [<= 0]: three lines are read, and the transaction is added with this
    amount, the category that the dict gives for the second line ("Другое"
    when the line is not a key) and the third line as description. *)
Theorem add_income_accepts today w p line choice description rest self (a : A) :
  float line = Some a →
  le a zero = false →
  add_income zero le float today w p
    {| keyboard := line :: choice :: description :: rest; tracker := self |}
  = (Returns (),
     {| keyboard := rest;
        tracker :=
          snd (add_transaction today w p a
                 (default "Другое" (income_categories !! choice))
                 description self) |})
  ∧ default "Другое" (income_categories !! choice)
    ∈ ["Зарплата"; "Фриланс"; "Инвестиции"; "Другое"].
Proof.
  intros Ha Hle. split; [by apply add_income_eval|].
  apply income_category_listed.
Qed.

(** [add_income] and [add_expense] with a line that [float] refuses, or that
    it converts to an amount [<= 0]: the function returns normally, only
    this line has been read and the tracker is unchanged. *)
Theorem add_income_rejects today w p line rest self :
  float line = None ∨ (∃ a, float line = Some a ∧ le a zero = true) →
  add_income zero le float today w p
    {| keyboard := line :: rest; tracker := self |}
  = (Returns (), {| keyboard := rest; tracker := self |})
  ∧ add_expense zero le neg float today w p
      {| keyboard := line :: rest; tracker := self |}
    = (Returns (), {| keyboard := rest; tracker := self |}).
Proof. exact (add_rejected_eval today w p line rest self). Qed.

Lemma add_income_cases today w p c :
  let r := add_income zero le float today w p c in
  (fst r = Returns () ∨ fst r = Raises EOFError)
  ∧ ((snd r).(tracker) = c.(tracker)
     ∨ fst r = Returns ()
       ∧ ∃ a category description,
           le a zero = false
           ∧ category ∈ ["Зарплата"; "Фриланс"; "Инвестиции"; "Другое"]
           ∧ (snd r).(tracker)
             = snd (add_transaction today w p a category description
                      c.(tracker))).
Proof.
  destruct c as [kb self]. destruct kb as [|line kb]; [by split; [right|left]|].
  destruct (float line) as [a|] eqn:Ha;
    [destruct (le a zero) eqn:Hle|].
  - rewrite (proj1 (add_rejected_eval today w p line kb self
                      (or_intror (ex_intro _ a (conj Ha Hle))))).
    by split; left.
  - destruct kb as [|choice [|description rest]].
    + unfold add_income, except_ValueError, mbind, IO_bind, input, convert.
      simpl. rewrite Ha, Hle. by split; [right|left].
    + unfold add_income, except_ValueError, mbind, IO_bind, input, convert.
      simpl. rewrite Ha, Hle. by split; [right|left].
    + rewrite (add_income_eval today w p line choice description rest self a
                 Ha Hle).
      simpl. split; [by left|right].
      split; [done|]. eexists a, _, description.
      split; [done|]. split; [apply income_category_listed|done].
  - rewrite (proj1 (add_rejected_eval today w p line kb self (or_introl Ha))).
    by split; left.
Qed.

Lemma add_expense_cases today w p c :
  let r := add_expense zero le neg float today w p c in
  (fst r = Returns () ∨ fst r = Raises EOFError)
  ∧ ((snd r).(tracker) = c.(tracker)
     ∨ fst r = Returns ()
       ∧ ∃ a category description,
           le a zero = false
           ∧ category ∈ ["Еда"; "Транспорт"; "Развлечения"; "Здоровье";
                         "Образование"; "Другое"]
           ∧ (snd r).(tracker)
             = snd (add_transaction today w p (neg a) category description
                      c.(tracker))).
Proof.
  destruct c as [kb self]. destruct kb as [|line kb]; [by split; [right|left]|].
  destruct (float line) as [a|] eqn:Ha;
    [destruct (le a zero) eqn:Hle|].
  - rewrite (proj2 (add_rejected_eval today w p line kb self
                      (or_intror (ex_intro _ a (conj Ha Hle))))).
    by split; left.
  - destruct kb as [|choice [|description rest]].
    + unfold add_expense, except_ValueError, mbind, IO_bind, input, convert.
      simpl. rewrite Ha, Hle. by split; [right|left].
    + unfold add_expense, except_ValueError, mbind, IO_bind, input, convert.
      simpl. rewrite Ha, Hle. by split; [right|left].
    + rewrite (add_expense_eval today w p line choice description rest self a
                 Ha Hle).
      simpl. split; [by left|right].
      split; [done|]. eexists a, _, description.
      split; [done|]. split; [apply expense_category_listed|done].
  - rewrite (proj2 (add_rejected_eval today w p line kb self (or_introl Ha))).
    by split; left.
Qed.

(** [add_income] raises nothing but [EOFError], which it raises when the
    lines run out.  Either it leaves the tracker as it was, or it has
    returned normally and added one transaction, whose amount is not [<= 0]
    and whose category is one of the four categories of income. *)
Theorem add_income_effect today w p c :
  let r := add_income zero le float today w p c in
  (fst r = Returns () ∨ fst r = Raises EOFError)
  ∧ ((snd r).(tracker) = c.(tracker)
     ∨ fst r = Returns ()
       ∧ ∃ a category description,
           le a zero = false
           ∧ category ∈ ["Зарплата"; "Фриланс"; "Инвестиции"; "Другое"]
           ∧ (snd r).(tracker)
             = snd (add_transaction today w p a category description
                      c.(tracker))).
Proof. apply add_income_cases. Qed.

(** The same for [add_expense]: the transaction that it adds has the
    opposite of the amount typed, which was not [<= 0], and one of the six
    categories of expense. *)
Theorem add_expense_effect today w p c :
  let r := add_expense zero le neg float today w p c in
  (fst r = Returns () ∨ fst r = Raises EOFError)
  ∧ ((snd r).(tracker) = c.(tracker)
     ∨ fst r = Returns ()
       ∧ ∃ a category description,
           le a zero = false
           ∧ category ∈ ["Еда"; "Транспорт"; "Развлечения"; "Здоровье";
                         "Образование"; "Другое"]
           ∧ (snd r).(tracker)
             = snd (add_transaction today w p (neg a) category description
                      c.(tracker))).
Proof. apply add_expense_cases. Qed.

(** *** Deleting from the menu *)

Lemma on_tracker_delete_transaction w p (index : Z) c :
  on_tracker (delete_transaction w p index) c
  = (Returns (bool_decide
                (0 ≤ index < Z.of_nat (length c.(tracker).(transactions)))
              && printed p),
     {| keyboard := c.(keyboard);
        tracker := snd (delete_transaction w p index c.(tracker)) |}).
Proof.
  unfold on_tracker. case_bool_decide.
  - by rewrite delete_transaction_in_range.
  - by rewrite delete_transaction_out_of_range.
Qed.

(** What [delete_transaction_menu] does once the listing is printed and a
    line is there to be read. *)
Lemma delete_transaction_menu_eval w p line rest self :
  self.(transactions) ≠ [] →
  list_transactions zero lt show_line self = Ok () →
  delete_transaction_menu zero lt int show_line w p
    {| keyboard := line :: rest; tracker := self |}
  = match int line with
    | Some k =>
        if bool_decide (k = 0)
        then (Returns (), {| keyboard := rest; tracker := self |})
        else (Returns (),
              {| keyboard := rest;
                 tracker := snd (delete_transaction w p (k - 1) self) |})
    | None => (Returns (), {| keyboard := rest; tracker := self |})
    end.
Proof.
  intros Hl Hlist. unfold delete_transaction_menu. simpl.
  destruct (transactions self) as [|t0 l] eqn:Ht; [done|].
  unfold reading, except_ValueError, mbind, IO_bind, input, convert. simpl.
  rewrite Hlist. simpl.
  destruct (int line) as [k|]; simpl; [|done].
  case_bool_decide; simpl; [done|].
  by rewrite on_tracker_delete_transaction.
Qed.

(** In the menu of deletion, once the listing is printed, typing the number
    printed in front of a transaction deletes this transaction and no other:
    the number [k] of the listing stands for the position [k - 1] of the
    stored sequence. *)
Theorem delete_transaction_menu_number w p line rest self (k : Z)
    (t : Transaction A) :
  list_transactions zero lt show_line self = Ok () →
  int line = Some k →
  (k, t) ∈ numbered self.(transactions) →
  ∃ i : nat,
    k = Z.of_nat i + 1
    ∧ self.(transactions) !! i = Some t
    ∧ delete_transaction_menu zero lt int show_line w p
        {| keyboard := line :: rest; tracker := self |}
      = (Returns (),
         {| keyboard := rest;
            tracker := snd (delete_transaction w p (Z.of_nat i) self) |})
    ∧ (snd (delete_transaction w p (Z.of_nat i) self)).(transactions)
      = delete i self.(transactions).
Proof.
  intros Hlist Hk Hkt. unfold numbered in Hkt.
  apply elem_of_lookup_imap_1 in Hkt as (i & t' & [= -> <-] & Ht).
  exists i. split; [done|]. split; [done|].
  apply lookup_lt_Some in Ht as Hi. split.
  - rewrite delete_transaction_menu_eval; [|by intros Hnil; rewrite Hnil in Ht
                                            |done].
    rewrite Hk, bool_decide_eq_false_2 by lia.
    by replace (Z.of_nat i + 1 - 1) with (Z.of_nat i) by lia.
  - rewrite delete_transaction_in_range by lia. simpl. by rewrite Nat2Z.id.
Qed.

(** [delete_transaction_menu] reads no line when the tracker has no
    transaction.  When the listing raises, because an amount cannot be
    compared with [0] or a line cannot be formatted or printed, the
    exception goes up to the caller: no line is read and the tracker is
    unchanged.  When the listing is printed, the function raises nothing but
    [EOFError], and it leaves the tracker as it was unless the line read is
    converted by [int] to a number from [1] to the number of
    transactions. *)
Theorem delete_transaction_menu_effect w p c :
  let r := delete_transaction_menu zero lt int show_line w p c in
  let n := Z.of_nat (length c.(tracker).(transactions)) in
  (c.(tracker).(transactions) = [] → r = (Returns (), c))
  ∧ (∀ e, list_transactions zero lt show_line c.(tracker) = Raise e →
       r = (Raises e, c))
  ∧ (list_transactions zero lt show_line c.(tracker) = Ok () →
     (fst r = Returns () ∨ fst r = Raises EOFError)
     ∧ ((snd r).(tracker) = c.(tracker)
        ∨ ∃ line k, c.(keyboard) = line :: (snd r).(keyboard)
            ∧ int line = Some k ∧ 1 ≤ k ≤ n
            ∧ (snd r).(tracker)
              = snd (delete_transaction w p (k - 1) c.(tracker)))).
Proof.
  destruct c as [kb self]. intros r n. unfold r. simpl.
  split; [|split].
  - intros Hl. unfold delete_transaction_menu. simpl. by rewrite Hl.
  - intros e He. unfold delete_transaction_menu. simpl.
    destruct (transactions self) as [|t0 l] eqn:Hl.
    { unfold list_transactions in He. by rewrite Hl in He. }
    unfold reading, mbind, IO_bind. simpl. by rewrite He.
  - intros Hlist.
    destruct (decide (self.(transactions) = [])) as [Hl|Hl].
    { unfold delete_transaction_menu. simpl. rewrite Hl.
      by split; [left|left]. }
    destruct kb as [|line kb].
    { unfold delete_transaction_menu. simpl.
      destruct (transactions self) as [|t0 l]; [done|].
      unfold reading, except_ValueError, mbind, IO_bind, input. simpl.
      rewrite Hlist. simpl. by split; [right|left]. }
    rewrite delete_transaction_menu_eval by done.
    destruct (int line) as [k|] eqn:Hk; [|by split; [left|left]].
    case_bool_decide as Hk0; [by split; [left|left]|].
    simpl. split; [by left|].
    destruct (decide (0 ≤ k - 1 < Z.of_nat (length (transactions self)))).
    + right. exists line, k. do 2 (split; [done|]). split; [|done].
      unfold n. simpl. lia.
    + left. by rewrite delete_transaction_out_of_range.
Qed.

End menu_properties.

(** ** Properties of the listing by date *)

Section listing_properties.
Context {A : Type}.
Implicit Types (r : row A) (rows : list (row A)).

Lemma leb_refl (s : string) : String.leb s s = true.
Proof. by destruct (String.leb_total s s). Qed.

Lemma insert_by_date_perm r rows : insert_by_date r rows ≡ₚ r :: rows.
Proof.
  induction rows as [|r' rows IH]; [done|]. simpl.
  destruct (String.leb (row_date r') (row_date r)); [done|].
  by rewrite IH, Permutation_swap.
Qed.

Lemma insert_by_date_sorted r rows :
  Sorted not_older rows → Sorted not_older (insert_by_date r rows).
Proof.
  induction 1 as [|r' rows Hrows IH Hr']; simpl.
  - by repeat constructor.
  - destruct (String.leb (row_date r') (row_date r)) eqn:Hle.
    + by repeat constructor.
    + constructor; [done|].
      assert (not_older r' r) as Hr.
      { unfold not_older.
        by destruct (String.leb_total (row_date r) (row_date r'));
          [|congruence]. }
      destruct Hr' as [|r'' rows' Hr'']; simpl; [by constructor|].
      by destruct (String.leb (row_date r'') (row_date r)); constructor.
Qed.

Lemma insert_by_date_filter r rows (d : string) :
  filter (λ r', row_date r' = d) (insert_by_date r rows)
  = filter (λ r', row_date r' = d) (r :: rows).
Proof.
  induction rows as [|r' rows IH]; [done|]. simpl.
  destruct (String.leb (row_date r') (row_date r)) eqn:Hle; [done|].
  rewrite !filter_cons in *. rewrite IH.
  destruct (decide (row_date r = d)) as [Hr|Hr],
    (decide (row_date r' = d)) as [Hr'|Hr']; try done.
  by rewrite Hr', <-Hr, leb_refl in Hle.
Qed.

Lemma sorted_by_date_id rows :
  Sorted not_older rows → sorted_by_date rows = rows.
Proof.
  induction 1 as [|r rows Hrows IH Hr]; [done|].
  unfold sorted_by_date in *. simpl. rewrite IH.
  destruct Hr as [|r' rows' Hr']; [done|]. simpl.
  unfold not_older in Hr'. by rewrite Hr'.
Qed.

Lemma numbered_snd {T} (l : list T) : (numbered l).*2 = l.
Proof.
  unfold numbered. apply list_eq. intros i.
  rewrite list_lookup_fmap, list_lookup_imap. by destruct (l !! i).
Qed.

Lemma sorted_by_date_is_sorted rows : Sorted not_older (sorted_by_date rows).
Proof.
  unfold sorted_by_date. induction rows as [|r rows IH]; [constructor|].
  simpl. by apply insert_by_date_sorted.
Qed.

(** The listing of [show_all_transactions] shows every transaction once,
    and from the most recent date to the oldest. *)
Theorem sorted_by_date_sorted rows :
  sorted_by_date rows ≡ₚ rows ∧ Sorted not_older (sorted_by_date rows).
Proof.
  split; [|apply sorted_by_date_is_sorted].
  unfold sorted_by_date. induction rows as [|r rows IH]; [done|].
  simpl. by rewrite insert_by_date_perm, IH.
Qed.

(** In this listing the transactions of one date stand in the order in
    which they are stored. *)
Theorem sorted_by_date_stable rows (d : string) :
  filter (λ r, row_date r = d) (sorted_by_date rows)
  = filter (λ r, row_date r = d) rows.
Proof.
  unfold sorted_by_date. induction rows as [|r rows IH]; [done|].
  simpl. rewrite insert_by_date_filter, !filter_cons. by rewrite IH.
Qed.

(** The numbers that the listing by date prints are the numbers that the
    menu of deletion prints for the same transactions exactly when the
    transactions are stored from the most recent date to the oldest. *)
Theorem listing_numbers_agree rows :
  numbered (sorted_by_date rows) = numbered rows ↔ Sorted not_older rows.
Proof.
  split.
  - intros Hn. apply (f_equal (fmap snd)) in Hn.
    rewrite !numbered_snd in Hn. rewrite <-Hn.
    apply sorted_by_date_is_sorted.
  - intros Hs. by rewrite sorted_by_date_id.
Qed.

End listing_properties.

(** ** Witnesses of the further properties *)

Lemma to_dict_from_dict_witness :
  ∃ t d',
    from_dict "2025-03-05" (VDict record_with_note) = Ok t
    ∧ to_dict t = VDict d'
    ∧ d' !! "amount" = Some (VNum 10)
    ∧ d' !! "date" = Some (VStr "2025-03-05")
    ∧ d' !! "note" = None.
Proof.
  assert (from_dict "2025-03-05" (VDict record_with_note)
          = Ok {| amount := VNum 10; category := VStr "Food";
                  description := VStr "Bread";
                  date := VStr "2025-03-05" |}) as Ht by reflexivity.
  destruct (to_dict_from_dict "2025-03-05" record_with_note _ Ht)
    as (d' & Hd' & Ha & _ & _ & Hdt & Hother).
  eexists _, d'. split; [exact Ht|]. split; [exact Hd'|].
  split; [by rewrite Ha|]. split; [by rewrite Hdt|].
  apply Hother. unfold required_keys.
  rewrite !not_elem_of_cons. repeat split; try done. apply not_elem_of_nil.
Defined.

Lemma load_unchecked_amount_witness :
  let self :=
    FinanceTracker_init "2025-03-05"
      (Document (VList (to_dict <$> [transaction_of salary; text_amount]))) in
  Forall dated [transaction_of salary; text_amount]
  ∧ self.(transactions) = [transaction_of salary; text_amount]
  ∧ ∃ e, get_balance 0 int_plus self = Raise e
      ∧ (e = TypeError ∨ e = OverflowError).
Proof.
  assert (Forall dated [transaction_of salary; text_amount]) as Hl
    by (by repeat constructor).
  split; [exact Hl|].
  apply (load_unchecked_amount 0 int_plus "2025-03-05"
           [transaction_of salary; text_amount] text_amount Hl).
  - right. left.
  - discriminate.
Defined.

Lemma restart_after_failed_delete_witness :
  let self :=
    {| stored := Document (VList (to_dict <$> [transaction_of salary;
                                               transaction_of food]));
       transactions := [transaction_of salary; transaction_of food] |} in
  fst (delete_transaction DumpFails Printed 0 self) = Ok true
  ∧ (FinanceTracker_init "2025-03-05"
       (snd (delete_transaction DumpFails Printed 0 self)).(stored))
      .(transactions)
    = [].
Proof.
  intros self.
  apply (restart_after_failed_delete "2025-03-05" Printed 0 self).
  unfold self. simpl. lia.
Defined.

Lemma load_then_save_witness :
  reachable salary_tracker
  ∧ salary_tracker.(transactions) = [transaction_of salary]
  ∧ (snd (save_data WriteOk
            (FinanceTracker_init "2025-03-05"
               (snd (save_data WriteOk salary_tracker)).(stored)))).(stored)
    = (snd (save_data WriteOk salary_tracker)).(stored).
Proof.
  assert (reachable salary_tracker) as Hself
    by apply reachable_add, reachable_init.
  split; [exact Hself|]. split; [reflexivity|].
  apply (load_then_save "2025-03-05" salary_tracker Hself).
Defined.

Lemma get_balance_delete_witness :
  ∃ b b',
    get_balance 0 int_plus
      {| stored := Missing; transactions := transaction_of <$> [salary; food] |}
    = Ok (VNum b)
    ∧ get_balance 0 int_plus
        (snd (delete_transaction WriteOk Printed 0
                {| stored := Missing;
                   transactions := transaction_of <$> [salary; food] |}))
      = Ok (VNum b')
    ∧ b = b' + 5000.
Proof.
  assert (Assoc (=) Z.add) as Ha by (intros x y z; lia).
  assert (Comm (=) Z.add) as Hc by (intros x y; lia).
  assert (LeftId (=) 0 Z.add) as Hz by (intros x; lia).
  destruct (get_balance_delete 0 int_plus Z.add (λ a b, eq_refl)
              (Assoc0 := Ha) (Comm0 := Hc) (LeftId0 := Hz)
              WriteOk Printed Missing [salary; food] 0%nat salary eq_refl)
    as (b & b' & Hb & _ & Hb' & Hbb).
  exists b, b'. split; [exact Hb|]. split; [exact Hb'|exact Hbb].
Defined.

Lemma add_income_accepts_witness :
  example_float "100" = Some 100
  ∧ (100 <=? 0) = false
  ∧ add_income 0 Z.leb example_float "2025-03-01" WriteOk Printed
      {| keyboard := ["100"; "1"; "March pay"; "3"];
         tracker := {| stored := Missing; transactions := [] |} |}
    = (Returns (),
       {| keyboard := ["3"];
          tracker :=
            snd (add_transaction "2025-03-01" WriteOk Printed 100 "Зарплата"
                   "March pay" {| stored := Missing; transactions := [] |}) |}).
Proof.
  split; [reflexivity|]. split; [reflexivity|].
  apply (add_income_accepts 0 Z.leb example_float "2025-03-01" WriteOk Printed
           "100" "1" "March pay" ["3"]
           {| stored := Missing; transactions := [] |} 100 eq_refl eq_refl).
Defined.

Lemma add_income_rejects_witness :
  example_float "abc" = None
  ∧ add_income 0 Z.leb example_float "2025-03-01" WriteOk Printed
      {| keyboard := ["abc"; "1"];
         tracker := {| stored := Missing; transactions := [] |} |}
    = (Returns (),
       {| keyboard := ["1"];
          tracker := {| stored := Missing; transactions := [] |} |})
  ∧ add_expense 0 Z.leb Z.opp example_float "2025-03-01" WriteOk Printed
      {| keyboard := ["0"; "1"];
         tracker := {| stored := Missing; transactions := [] |} |}
    = (Returns (),
       {| keyboard := ["1"];
          tracker := {| stored := Missing; transactions := [] |} |}).
Proof.
  split; [reflexivity|]. split.
  - apply (add_income_rejects 0 Z.leb Z.opp example_float "2025-03-01" WriteOk
             Printed "abc" ["1"] {| stored := Missing; transactions := [] |}).
    by left.
  - apply (add_income_rejects 0 Z.leb Z.opp example_float "2025-03-01" WriteOk
             Printed "0" ["1"] {| stored := Missing; transactions := [] |}).
    right. by exists 0.
Defined.

Lemma delete_transaction_menu_number_witness :
  let self :=
    {| stored := Missing;
       transactions := [transaction_of salary; transaction_of food] |} in
  list_transactions 0 Z.ltb (λ _, Ok ()) self = Ok ()
  ∧ example_int "2" = Some 2
  ∧ (2, transaction_of food) ∈ numbered self.(transactions)
  ∧ delete_transaction_menu 0 Z.ltb example_int (λ _, Ok ()) WriteOk Printed
      {| keyboard := ["2"; "0"]; tracker := self |}
    = (Returns (),
       {| keyboard := ["0"];
          tracker := snd (delete_transaction WriteOk Printed 1 self) |})
  ∧ (snd (delete_transaction WriteOk Printed 1 self)).(transactions)
    = [transaction_of salary].
Proof.
  intros self.
  assert ((2, transaction_of food) ∈ numbered self.(transactions)) as Hin
    by (right; left).
  split; [reflexivity|]. split; [reflexivity|]. split; [exact Hin|].
  destruct (delete_transaction_menu_number 0 Z.ltb example_int (λ _, Ok ())
              WriteOk Printed "2" ["0"] self 2 (transaction_of food)
              eq_refl eq_refl Hin)
    as (i & Hi & _ & Hmenu & Hdel).
  assert (i = 1%nat) as -> by lia.
  split; [exact Hmenu|exact Hdel].
Defined.
